(** * Supplier / owner order pages and the genealogy SQL exercise

    A shallow embedding of the two browser scripts
    ([partD-frontend-owner.js] and the supplier script) and of the SQL
    script (Ex1, Ex2), followed by the properties the specification states
    about them.

    Conventions of the embedding.
    - JavaScript strings are [string]s; only ASCII white space is treated as
      white space by [trim], [parseInt] and [parseFloat].
    - JavaScript numbers are exact decimal values ([number]); the rounding,
      overflow and underflow of binary64 are outside the model.  Text made
      from a number ([String(n)], [n.toFixed(2)]) is kept symbolic in the
      rendered tree, and a number that travels through an attribute
      ([data-price]) and [parseFloat] comes back as itself.
    - [innerHTML] templates are embedded as the element tree they denote;
      interpolated data is text (it carries no markup of its own).
    - A response body that parses is a JSON object of the shape the scripts
      read ([data]); [SyntaxError] is a body that fails to parse.
    - An [async] function is a [task]: a tree of effects that is run
      synchronously up to each [await fetch(...)], where it is parked until
      the response is delivered.  The body is read with the response.
    - SQL conditions are three-valued; a statement that violates a key, or
      that uses a subquery of several rows as a value, fails as a whole. *)

From Stdlib Require Import String Ascii List ZArith QArith Bool Lia Arith.
From Stdlib Require Import DecimalString.
Import ListNotations.
Local Close Scope Q_scope.
Local Open Scope string_scope.
Local Open Scope list_scope.
Local Open Scope nat_scope.

Set Implicit Arguments.
Set Warnings "-register-all".

(* ===================================================================== *)
(** * JavaScript values used by the scripts *)
(* ===================================================================== *)

Module Js.

(** ** Numbers *)

Inductive number : Type :=
| NaN
| Infinity (negative : bool)
| Finite (q : Q).

Definition isNaN (n : number) : bool :=
  match n with NaN => true | _ => false end.

(** [a > b] and [a >= b]; any comparison with [NaN] is false. *)
Definition num_compare (a b : number) : option comparison :=
  match a, b with
  | NaN, _ | _, NaN => None
  | Infinity na, Infinity nb =>
      Some (match na, nb with
            | true, false => Lt | false, true => Gt | _, _ => Eq end)
  | Infinity na, Finite _ => Some (if na then Lt else Gt)
  | Finite _, Infinity nb => Some (if nb then Gt else Lt)
  | Finite x, Finite y => Some (Qcompare x y)
  end.

Definition gt (a b : number) : bool :=
  match num_compare a b with Some Gt => true | _ => false end.

Definition ge (a b : number) : bool :=
  match num_compare a b with Some Gt | Some Eq => true | _ => false end.

Definition of_Z (z : Z) : number := Finite (inject_Z z).

(** Truthiness of a number: [NaN] and zero are falsy. *)
Definition truthy_num (n : number) : bool :=
  match n with
  | NaN => false
  | Infinity _ => true
  | Finite q => negb (Qeq_bool q 0)
  end.

(** ** Strings *)

Definition is_space (c : ascii) : bool :=
  let n := nat_of_ascii c in
  ((9 <=? n) && (n <=? 13)) || (n =? 32).

Fixpoint trimStart (s : string) : string :=
  match s with
  | String c r => if is_space c then trimStart r else s
  | EmptyString => EmptyString
  end.

Fixpoint rev_string (s acc : string) : string :=
  match s with
  | String c r => rev_string r (String c acc)
  | EmptyString => acc
  end.

Definition trimEnd (s : string) : string :=
  rev_string (trimStart (rev_string s "")) "".

Definition trim (s : string) : string := trimEnd (trimStart s).

(** Truthiness of a string: only the empty string is falsy. *)
Definition truthy (s : string) : bool :=
  match s with EmptyString => false | _ => true end.

(** [a || b] where [a] may be [undefined] and both are strings. *)
Definition or_else (a : option string) (b : string) : string :=
  match a with
  | Some s => if truthy s then s else b
  | None => b
  end.

(** [a || []]. *)
Definition or_nil {A} (a : option (list A)) : list A :=
  match a with Some l => l | None => [] end.

(** ** parseInt and parseFloat *)

Definition digit_value (radix : Z) (c : ascii) : option Z :=
  let n := Z.of_nat (nat_of_ascii c) in
  let v :=
    if (48 <=? n)%Z && (n <=? 57)%Z then Some (n - 48)%Z
    else if (97 <=? n)%Z && (n <=? 122)%Z then Some (n - 87)%Z
    else if (65 <=? n)%Z && (n <=? 90)%Z then Some (n - 55)%Z
    else None in
  match v with
  | Some d => if (d <? radix)%Z then Some d else None
  | None => None
  end.

(** Reads the longest run of digits: the value read so far, the number of
    digits read and the rest of the text. *)
Fixpoint read_digits (radix : Z) (s : string) (acc : Z) (n : nat)
  : Z * nat * string :=
  match s with
  | String c r =>
      match digit_value radix c with
      | Some d => read_digits radix r (radix * acc + d)%Z (S n)
      | None => (acc, n, s)
      end
  | EmptyString => (acc, n, s)
  end.

Definition read_sign (s : string) : bool * string :=
  match s with
  | String "-" r => (true, r)
  | String "+" r => (false, r)
  | _ => (false, s)
  end.

Definition strip_hex (s : string) : Z * string :=
  match s with
  | String "0" (String "x" r) => (16%Z, r)
  | String "0" (String "X" r) => (16%Z, r)
  | _ => (10%Z, s)
  end.

Definition parseInt (s : string) : number :=
  let '(neg, s1) := read_sign (trimStart s) in
  let '(radix, s2) := strip_hex s1 in
  let '(v, n, _) := read_digits radix s2 0%Z 0 in
  match n with
  | O => NaN
  | S _ => of_Z (if neg then (- v)%Z else v)
  end.

Definition read_exponent (s : string) : Z :=
  match s with
  | String c r =>
      if (Ascii.eqb c "e" || Ascii.eqb c "E")%bool then
        let '(neg, r1) := read_sign r in
        let '(v, n, _) := read_digits 10 r1 0%Z 0 in
        match n with
        | O => 0%Z
        | S _ => if neg then (- v)%Z else v
        end
      else 0%Z
  | EmptyString => 0%Z
  end.

Definition parseFloat (s : string) : number :=
  let '(neg, s1) := read_sign (trimStart s) in
  if String.prefix "Infinity" s1 then Infinity neg
  else
    let '(iv, ni, s2) := read_digits 10 s1 0%Z 0 in
    let '(fv, nf, s3) :=
      match s2 with
      | String "." r => read_digits 10 r iv 0
      | _ => (iv, 0, s2)
      end in
    match ni + nf with
    | O => NaN
    | S _ =>
        let e := (read_exponent s3 - Z.of_nat nf)%Z in
        let m := inject_Z (if neg then (- fv)%Z else fv) in
        Finite (m * Qpower (10 # 1) e)
    end.

(** ** encodeURIComponent *)

Definition unreserved (c : ascii) : bool :=
  let n := nat_of_ascii c in
  ((48 <=? n) && (n <=? 57)) || ((65 <=? n) && (n <=? 90))
  || ((97 <=? n) && (n <=? 122))
  || existsb (Ascii.eqb c) ["-"; "_"; "."; "!"; "~"; "*"; "'"; "("; ")"]%char.

Definition hex_digit (n : nat) : ascii :=
  ascii_of_nat (if n <? 10 then 48 + n else 55 + n).

Fixpoint encodeURIComponent (s : string) : string :=
  match s with
  | String c r =>
      if unreserved c then String c (encodeURIComponent r)
      else
        let n := nat_of_ascii c in
        String "%" (String (hex_digit (n / 16))
                   (String (hex_digit (n mod 16)) (encodeURIComponent r)))
  | EmptyString => EmptyString
  end.

Definition string_of_nat (n : nat) : string :=
  NilEmpty.string_of_uint (Nat.to_uint n).

(** ** JSON values built by the scripts ([JSON.stringify] arguments) *)

Inductive json : Type :=
| JNum (n : number)
| JStr (s : string)
| JArr (l : list json)
| JObj (fields : list (string * json)).

Definition keys (j : json) : list string :=
  match j with
  | JObj fields => map fst fields
  | _ => []
  end.

Definition field (k : string) (j : json) : option json :=
  match j with
  | JObj fields =>
      match find (fun kv => String.eqb (fst kv) k) fields with
      | Some kv => Some (snd kv)
      | None => None
      end
  | _ => None
  end.

(** ** Rendered markup *)

Inductive html : Type :=
| Text (s : string)                (* literal or interpolated text *)
| NumText (n : number)             (* a number interpolated as text *)
| Fixed2 (n : number)              (* the text of n.toFixed(2) *)
| Elem (tag : string) (attrs : list (string * string)) (kids : list html).

(** All elements with the given tag, in document order. *)
Fixpoint elements (tag : string) (h : html) : list html :=
  match h with
  | Elem t _ kids =>
      (if String.eqb t tag then [h] else [])
        ++ (fix all (l : list html) : list html :=
              match l with
              | [] => []
              | x :: r => elements tag x ++ all r
              end) kids
  | _ => []
  end.


(** [items.map(f).join(sep)] where each [f item] is a run of text nodes. *)
Fixpoint join (sep : list html) (parts : list (list html)) : list html :=
  match parts with
  | [] => []
  | [p] => p
  | p :: rest => p ++ sep ++ join sep rest
  end.

(** [s.toLowerCase()] on ASCII letters. *)
Definition lower (c : ascii) : ascii :=
  let n := nat_of_ascii c in
  if (65 <=? n) && (n <=? 90) then ascii_of_nat (n + 32) else c.

Fixpoint toLowerCase (s : string) : string :=
  match s with
  | String c r => String (lower c) (toLowerCase r)
  | EmptyString => EmptyString
  end.

(** [s.replace(' ', '-')]: only the first blank is replaced. *)
Fixpoint replace_first_space (s : string) : string :=
  match s with
  | String c r =>
      if Ascii.eqb c " " then String "-" r
      else String c (replace_first_space r)
  | EmptyString => EmptyString
  end.

End Js.

(* ===================================================================== *)
(** * The REST API as the scripts see it *)
(* ===================================================================== *)

Module Api.
Import Js.

Definition API_URL : string := "http://127.0.0.1:8000".

Record product : Type := {
  product_name : string;
  price_per_item : number
}.

Record supplier : Type := {
  company_name : option string;          (* None: the field is missing *)
  products : option (list product)
}.

Record item : Type := {
  item_product_name : string;
  item_quantity : number;
  item_price_per_item : number
}.

Record order : Type := {
  order_reference_id : string;
  supplier_name : string;
  items : list item;
  total_amount : option number;          (* None: undefined or null *)
  status : string
}.

(** The fields the scripts read from a parsed response body. *)
Record data : Type := {
  message : option string;
  detail : option string;
  data_order_reference_id : option string;
  suppliers : option (list supplier);
  orders : option (list order)
}.

(** The result of [await response.json()]. *)
Inductive parsed : Type :=
| SyntaxError (msg : string)
| Json (d : data).

Record response : Type := {
  ok : bool;
  status_code : nat;
  statusText : string;
  response_json : parsed
}.

(** How [await fetch(...)] settles. *)
Inductive outcome : Type :=
| NetworkError (msg : string)
| Resolved (r : response).

Record request : Type := {
  method : string;
  url : string;
  headers : list (string * string);
  body : option json                     (* the value given to JSON.stringify *)
}.

Definition GET (u : string) : request :=
  {| method := "GET"; url := u; headers := []; body := None |}.

Definition json_headers : list (string * string) :=
  [("Content-Type", "application/json")].

(** The request failed: network error, unparsable body, or [ok = false]. *)
Definition failed (o : outcome) : bool :=
  match o with
  | NetworkError _ => true
  | Resolved r =>
      negb (ok r) || match response_json r with SyntaxError _ => true | Json _ => false end
  end.

End Api.

(* ===================================================================== *)
(** * Asynchronous functions as effect trees *)
(* ===================================================================== *)

Module Async.
Import Js Api.

Inductive event : Type :=
| Alerted (msg : string)                 (* alert(msg) *)
| LoggedError (msg : string)             (* console.error(msg, ...) *)
| LoggedWarn (msg : string)              (* console.warn(msg, ...) *)
| Asked (msg : string) (answer : bool)   (* confirm(msg) *)
| Sent (r : request)                     (* fetch(r) was called *)
| Uncaught (err : string).               (* exception no handler caught *)

Section Tasks.

Variable St : Type.                      (* the page the script works on *)

Inductive task : Type :=
| Done
| Throw (err : string)
| Alert (msg : string) (k : task)
| ConsoleError (msg : string) (k : task)
| ConsoleWarn (msg : string) (k : task)
| Confirm (msg : string) (k : bool -> task)
| Fetch (r : request) (k : outcome -> task)
| Get (k : St -> task)
| Modify (f : St -> St) (k : task)
| Call (child : task) (k : task).        (* async call that is not awaited *)

(** [list.forEach(x => ...)] with an effectful body. *)
Fixpoint forEach {A} (l : list A) (body : A -> task -> task) (k : task) : task :=
  match l with
  | [] => k
  | x :: r => body x (forEach r body k)
  end.

Variable user : string -> bool.          (* the answer given to confirm(msg) *)

Record result : Type := {
  page_after : St;
  events : list event;
  parked : list (request * (outcome -> task))
}.

(** Runs a task until it ends or is parked at a [fetch]. *)
Fixpoint sync (t : task) (s : St) : result :=
  match t with
  | Done => {| page_after := s; events := []; parked := [] |}
  | Throw err => {| page_after := s; events := [Uncaught err]; parked := [] |}
  | Alert m k =>
      let r := sync k s in
      {| page_after := page_after r; events := Alerted m :: events r; parked := parked r |}
  | ConsoleError m k =>
      let r := sync k s in
      {| page_after := page_after r; events := LoggedError m :: events r; parked := parked r |}
  | ConsoleWarn m k =>
      let r := sync k s in
      {| page_after := page_after r; events := LoggedWarn m :: events r; parked := parked r |}
  | Confirm m k =>
      let r := sync (k (user m)) s in
      {| page_after := page_after r; events := Asked m (user m) :: events r; parked := parked r |}
  | Fetch req k =>
      {| page_after := s; events := [Sent req]; parked := [(req, k)] |}
  | Get k => sync (k s) s
  | Modify f k => sync k (f s)
  | Call child k =>
      let r1 := sync child s in
      let r2 := sync k (page_after r1) in
      {| page_after := page_after r2;
         events := events r1 ++ events r2;
         parked := parked r1 ++ parked r2 |}
  end.

(** The page together with the requests that are in flight. *)
Record config : Type := {
  page : St;
  inflight : list (request * (outcome -> task))
}.

Definition dispatch (t : task) (s : St) : config :=
  let r := sync t s in
  {| page := page_after r; inflight := parked r |}.

Fixpoint remove_nth {A} (i : nat) (l : list A) : list A :=
  match i, l with
  | _, [] => []
  | O, _ :: r => r
  | S j, x :: r => x :: remove_nth j r
  end.

(** The [i]-th request in flight settles with [o]; its task resumes. *)
Definition deliver (i : nat) (o : outcome) (c : config) : option config :=
  match nth_error (inflight c) i with
  | Some (_, k) =>
      let r := sync (k o) (page c) in
      Some {| page := page_after r;
              inflight := remove_nth i (inflight c) ++ parked r |}
  | None => None
  end.

Inductive reach : config -> config -> Prop :=
| reach_refl : forall c, reach c c
| reach_step : forall c i o c1 c2,
    deliver i o c = Some c1 -> reach c1 c2 -> reach c c2.

(** The task issues a request from page [s] and [o] comes back. *)
Definition respond (t : task) (s : St) (o : outcome) : option result :=
  match parked (sync t s) with
  | (_, k) :: _ => Some (sync (k o) (page_after (sync t s)))
  | [] => None
  end.

(** ** Static readings of a task *)

(** Every branch of the task leaves [proj] of the page as it is. *)
Fixpoint keeps {A} (proj : St -> A) (t : task) : Prop :=
  match t with
  | Done | Throw _ => True
  | Alert _ k | ConsoleError _ k | ConsoleWarn _ k => keeps proj k
  | Confirm _ k => forall b, keeps proj (k b)
  | Fetch _ k => forall o, keeps proj (k o)
  | Get k => forall s, keeps proj (k s)
  | Modify f k => (forall s, proj (f s) = proj s) /\ keeps proj k
  | Call child k => keeps proj child /\ keeps proj k
  end.

(** No branch of the task calls [fetch]. *)
Fixpoint silent (t : task) : Prop :=
  match t with
  | Done | Throw _ => True
  | Alert _ k | ConsoleError _ k | ConsoleWarn _ k | Modify _ k => silent k
  | Confirm _ k => forall b, silent (k b)
  | Fetch _ _ => False
  | Get k => forall s, silent (k s)
  | Call child k => silent child /\ silent k
  end.

(** The task awaits each [fetch] before it goes on: after a call that is
    not awaited nothing else is fetched. *)
Fixpoint linear (t : task) : Prop :=
  match t with
  | Done | Throw _ => True
  | Alert _ k | ConsoleError _ k | ConsoleWarn _ k | Modify _ k => linear k
  | Confirm _ k => forall b, linear (k b)
  | Fetch _ k => forall o, linear (k o)
  | Get k => forall s, linear (k s)
  | Call child k => (linear child /\ silent k) \/ (silent child /\ linear k)
  end.

(** However the responses arrive, at most one request of the task is in
    flight. *)
Definition one_at_a_time (t : task) : Prop :=
  forall s c, reach (dispatch t s) c -> length (inflight c) <= 1.

End Tasks.

Arguments Done {St}.
Arguments Throw {St} err.
Arguments Get {St} k.

Definition alerts (l : list event) : list string :=
  flat_map (fun e => match e with Alerted m => [m] | _ => [] end) l.

Definition errors_logged (l : list event) : list string :=
  flat_map (fun e => match e with LoggedError m => [m] | _ => [] end) l.

Definition requests (l : list event) : list request :=
  flat_map (fun e => match e with Sent r => [r] | _ => [] end) l.

(** The error reached the user through a dialog and the console. *)
Definition surfaced (l : list event) : Prop :=
  alerts l <> [] /\ errors_logged l <> [].

(** The failure was an exception: no response, or a body that does not parse. *)
Definition thrown (o : outcome) : bool :=
  match o with
  | NetworkError _ => true
  | Resolved r => match response_json r with SyntaxError _ => true | Json _ => false end
  end.

(** A user who accepts every [confirm]. *)
Definition accepts : string -> bool := fun _ => true.

End Async.

(* ===================================================================== *)
(** * The owner page: partD-frontend-owner.js *)
(* ===================================================================== *)

Module Owner.
Import Js Api Async.

(** ** The page *)

Record select_option : Type := {
  option_value : string;
  option_text : string;
  supplierInfo : option supplier         (* dataset.supplierInfo, before stringify *)
}.

(** One [div.product-order-item]: the checkbox carries the product's name
    as its value and the text of its price in [data-price]; the number
    input is named [quantity_<name>]. *)
Record product_row : Type := {
  row_product : product;
  checked : bool;
  quantity_value : string;
  quantity_disabled : bool
}.

Definition checkbox_value (r : product_row) : string :=
  product_name (row_product r).

Definition quantity_name (r : product_row) : string :=
  ("quantity_" ++ product_name (row_product r))%string.

Inductive child : Type :=
| Para (text : string)                   (* <p>text</p> *)
| Item (r : product_row).

Record css_rule : Type := {
  selectorText : string;
  cssText : string
}.

Record page : Type := {
  suppliersData : list supplier;
  supplierSelect_options : list select_option;
  supplierSelect_value : string;
  productsForOrderDiv : list child;
  allOrdersListDiv : list html;
  styleSheet : option (list css_rule)    (* document.styleSheets[0]; None: not readable *)
}.

Definition set_suppliersData (v : list supplier) (s : page) : page :=
  {| suppliersData := v;
     supplierSelect_options := supplierSelect_options s;
     supplierSelect_value := supplierSelect_value s;
     productsForOrderDiv := productsForOrderDiv s;
     allOrdersListDiv := allOrdersListDiv s;
     styleSheet := styleSheet s |}.

(** [supplierSelect.innerHTML = ...]: the first option becomes the selected one. *)
Definition set_supplierSelect (opts : list select_option) (s : page) : page :=
  {| suppliersData := suppliersData s;
     supplierSelect_options := opts;
     supplierSelect_value :=
       match opts with o :: _ => option_value o | [] => "" end;
     productsForOrderDiv := productsForOrderDiv s;
     allOrdersListDiv := allOrdersListDiv s;
     styleSheet := styleSheet s |}.

(** [supplierSelect.appendChild(option)]: the selection stays. *)
Definition append_option (o : select_option) (s : page) : page :=
  {| suppliersData := suppliersData s;
     supplierSelect_options := supplierSelect_options s ++ [o];
     supplierSelect_value := supplierSelect_value s;
     productsForOrderDiv := productsForOrderDiv s;
     allOrdersListDiv := allOrdersListDiv s;
     styleSheet := styleSheet s |}.

Definition set_productsForOrderDiv (v : list child) (s : page) : page :=
  {| suppliersData := suppliersData s;
     supplierSelect_options := supplierSelect_options s;
     supplierSelect_value := supplierSelect_value s;
     productsForOrderDiv := v;
     allOrdersListDiv := allOrdersListDiv s;
     styleSheet := styleSheet s |}.

Definition set_allOrdersListDiv (v : list html) (s : page) : page :=
  {| suppliersData := suppliersData s;
     supplierSelect_options := supplierSelect_options s;
     supplierSelect_value := supplierSelect_value s;
     productsForOrderDiv := productsForOrderDiv s;
     allOrdersListDiv := v;
     styleSheet := styleSheet s |}.

Definition set_styleSheet (v : option (list css_rule)) (s : page) : page :=
  {| suppliersData := suppliersData s;
     supplierSelect_options := supplierSelect_options s;
     supplierSelect_value := supplierSelect_value s;
     productsForOrderDiv := productsForOrderDiv s;
     allOrdersListDiv := allOrdersListDiv s;
     styleSheet := v |}.

(** [newOrderForm.reset()]: the select goes back to its first option and
    every product row to its initial state. *)
Definition reset_row (c : child) : child :=
  match c with
  | Item r => Item {| row_product := row_product r; checked := false;
                      quantity_value := ""; quantity_disabled := quantity_disabled r |}
  | Para t => Para t
  end.

Definition reset_form (s : page) : page :=
  {| suppliersData := suppliersData s;
     supplierSelect_options := supplierSelect_options s;
     supplierSelect_value :=
       match supplierSelect_options s with o :: _ => option_value o | [] => "" end;
     productsForOrderDiv := map reset_row (productsForOrderDiv s);
     allOrdersListDiv := allOrdersListDiv s;
     styleSheet := styleSheet s |}.

Definition p (text : string) : html := Elem "p" [] [Text text].

Definition p_red (text : string) : html :=
  Elem "p" [("style", "color: red;")] [Text text].

(** ** fetchSuppliers *)

Definition fetchSuppliers_catch : task page :=
  ConsoleError "Error fetching suppliers:"
    (Modify (set_supplierSelect
               [{| option_value := ""; option_text := "Error loading suppliers";
                   supplierInfo := None |}])
       Done).

Definition add_supplier_option (supplier : supplier) (k : task page) : task page :=
  match company_name supplier with
  | Some name =>
      if truthy name then
        Modify (append_option {| option_value := name; option_text := name;
                                 supplierInfo := Some supplier |}) k
      else ConsoleWarn "Skipping supplier with missing data:" k
  | None => ConsoleWarn "Skipping supplier with missing data:" k
  end.

(** What follows [await fetch(...)] in [fetchSuppliers]. *)
Definition fetchSuppliers_settled (o : outcome) : task page :=
  match o with
  | NetworkError _ => fetchSuppliers_catch
  | Resolved response =>
      if negb (ok response) then fetchSuppliers_catch
      else
        match response_json response with
        | SyntaxError _ => fetchSuppliers_catch
        | Json data =>
            Modify (set_suppliersData (or_nil (suppliers data)))
              (Modify (set_supplierSelect
                         [{| option_value := ""; option_text := "Select supplier...";
                             supplierInfo := None |}])
                 (Get (fun s =>
                    forEach (suppliersData s) add_supplier_option Done)))
        end
  end.

Definition fetchSuppliers : task page :=
  Fetch (GET (API_URL ++ "/suppliers")%string) fetchSuppliers_settled.

(** ** displayProductsForOrder and the checkbox listener *)

Definition new_row (product : product) : child :=
  Item {| row_product := product; checked := false;
          quantity_value := ""; quantity_disabled := true |}.

Definition is_named (name : string) (s : supplier) : bool :=
  match company_name s with
  | Some n => String.eqb n name
  | None => false
  end.

Definition displayProductsForOrder : task page :=
  Get (fun s =>
    let selectedSupplierName := supplierSelect_value s in
    Modify (set_productsForOrderDiv [])
      (if negb (truthy selectedSupplierName) then
         Modify (set_productsForOrderDiv [Para "Please select a supplier to see products."]) Done
       else
         match find (is_named selectedSupplierName) (suppliersData s) with
         | Some selectedSupplier =>
             match products selectedSupplier with
             | Some (product :: rest) =>
                 Modify (set_productsForOrderDiv (map new_row (product :: rest))) Done
             | _ =>
                 Modify (set_productsForOrderDiv [Para "No products found for this supplier."]) Done
             end
         | None =>
             Modify (set_productsForOrderDiv [Para "No products found for this supplier."]) Done
         end)).

(** The user clicks the checkbox of the [i]-th child: the browser flips it,
    then the [change] listener adjusts the quantity input. *)
Definition flip (c : child) : child :=
  match c with
  | Item r =>
      let now := negb (checked r) in
      Item {| row_product := row_product r; checked := now;
              quantity_value := if now then "1" else "";
              quantity_disabled := negb now |}
  | Para t => Para t
  end.

Fixpoint update_nth {A} (i : nat) (f : A -> A) (l : list A) : list A :=
  match i, l with
  | _, [] => []
  | O, x :: r => f x :: r
  | S j, x :: r => x :: update_nth j f r
  end.

Definition checkbox_change (i : nat) : task page :=
  Modify (fun s => set_productsForOrderDiv (update_nth i flip (productsForOrderDiv s)) s) Done.

(** The user types [v] into the quantity input of the [i]-th child. *)
Definition type_quantity (i : nat) (v : string) (s : page) : page :=
  set_productsForOrderDiv
    (update_nth i (fun c =>
       match c with
       | Item r => Item {| row_product := row_product r; checked := checked r;
                           quantity_value := v; quantity_disabled := quantity_disabled r |}
       | Para t => Para t
       end) (productsForOrderDiv s)) s.

(** ** loadAllOrders *)

Definition item_text (item : item) : list html :=
  [Text (item_product_name item); Text " (x"; NumText (item_quantity item); Text ")"].

Definition status_class (status : string) : string :=
  ("status-" ++ replace_first_space (toLowerCase status))%string.

Definition complete_button (order : order) : html :=
  Elem "button"
    [("onclick", ("markOrderComplete('" ++ order_reference_id order ++ "')")%string)]
    [Text "Confirm Receipt (Complete)"].

Definition total_cell (order : order) : html :=
  match total_amount order with
  | Some n => if truthy_num n then Fixed2 n else Text "N/A"
  | None => Text "N/A"
  end.

Definition status_cell (order : order) : html :=
  Elem "span" [("class", ("order-status " ++ status_class (status order))%string)]
    [Text (status order)].

Definition order_actions (order : order) : list html :=
  if String.eqb (status order) "In Process" then [complete_button order] else [].

Definition order_row (order : order) : html :=
  Elem "tr" []
    [ Elem "td" [] [Text (order_reference_id order)];
      Elem "td" [] [Text (supplier_name order)];
      Elem "td" [] (join [Text ", "] (map item_text (items order)));
      Elem "td" [] [total_cell order];
      Elem "td" [] [status_cell order];
      Elem "td" [("class", "order-actions")] (order_actions order) ].

(** [classList.add(token)] throws when the token holds ASCII white space
    (tab, line feed, form feed, carriage return or space). *)
Definition is_token_space (c : ascii) : bool :=
  existsb (Nat.eqb (nat_of_ascii c)) [9; 10; 12; 13; 32].

Fixpoint has_space (s : string) : bool :=
  match s with
  | String c r => is_token_space c || has_space r
  | EmptyString => false
  end.

(** The body of [orders.forEach]: [None] when [classList.add] throws. *)
Fixpoint order_rows (orders : list order) : option (list html) :=
  match orders with
  | [] => Some []
  | order :: rest =>
      if has_space (status_class (status order)) then None
      else match order_rows rest with
           | Some rows => Some (order_row order :: rows)
           | None => None
           end
  end.

Definition orders_table (rows : list html) : html :=
  Elem "table" []
    [ Elem "thead" []
        [Elem "tr" []
           [ Elem "th" [] [Text "Order ID"];
             Elem "th" [] [Text "Supplier"];
             Elem "th" [] [Text "Order Details"];
             Elem "th" [] [Text "Total Amount"];
             Elem "th" [] [Text "Status"] ]];
      Elem "tbody" [] rows ].

Definition status_rules : list css_rule :=
  [ {| selectorText := ".status-pending";
       cssText := "background-color: #ffc107; color: #333; padding: 2px 5px; border-radius: 3px; display: inline-block; text-align: center;" |};
    {| selectorText := ".status-in-process";
       cssText := "background-color: #17a2b8; color: white; padding: 2px 5px; border-radius: 3px; display: inline-block; text-align: center;" |};
    {| selectorText := ".status-completed";
       cssText := "background-color: #28a745; color: white; padding: 2px 5px; border-radius: 3px; display: inline-block; text-align: center;" |} ].

Definition includes (rules : list css_rule) (selector : string) : bool :=
  existsb (fun r => String.eqb (selectorText r) selector) rules.

Definition insert_status_rules (rules : list css_rule) : list css_rule :=
  rules ++ filter (fun r => negb (includes rules (selectorText r))) status_rules.

Definition add_status_styles (k : task page) : task page :=
  Get (fun s =>
    match styleSheet s with
    | Some rules => Modify (set_styleSheet (Some (insert_status_rules rules))) k
    | None => ConsoleWarn "Could not insert dynamic CSS rules for status:" k
    end).

Definition loadAllOrders_catch : task page :=
  ConsoleError "Error loading orders:"
    (Modify (set_allOrdersListDiv [p_red "Error loading orders."]) Done).

(** What follows [await fetch(...)] in [loadAllOrders]. *)
Definition loadAllOrders_settled (o : outcome) : task page :=
  match o with
  | NetworkError _ => loadAllOrders_catch
  | Resolved response =>
      if negb (ok response) then loadAllOrders_catch
      else
        match response_json response with
        | SyntaxError _ => loadAllOrders_catch
        | Json data =>
            let orders := or_nil (orders data) in
            Modify (set_allOrdersListDiv [])
              (if length orders =? 0 then
                 Modify (set_allOrdersListDiv [p "No orders found."]) Done
               else
                 match order_rows orders with
                 | None => loadAllOrders_catch
                 | Some rows =>
                     add_status_styles
                       (Modify (fun s => set_allOrdersListDiv
                                           (allOrdersListDiv s ++ [orders_table rows]) s)
                          Done)
                 end)
        end
  end.

Definition loadAllOrders : task page :=
  Modify (set_allOrdersListDiv [p "Loading orders..."])
    (Fetch (GET (API_URL ++ "/orders/")%string) loadAllOrders_settled).

(** ** submitNewOrder *)

Definition product_rows (l : list child) : list product_row :=
  flat_map (fun c => match c with Item r => [r] | Para _ => [] end) l.

(** [querySelectorAll('input[type="checkbox"]:checked')] *)
Definition checkedProducts (l : list child) : list product_row :=
  filter checked (product_rows l).

(** [querySelector(`input[name="quantity_${productName}"]`)]: the first match. *)
Definition quantityInput (l : list child) (productName : string) : option product_row :=
  find (fun r => String.eqb (quantity_name r) ("quantity_" ++ productName)%string)
       (product_rows l).

Definition item_json (i : item) : json :=
  JObj [ ("product_name", JStr (item_product_name i));
         ("quantity", JNum (item_quantity i));
         ("price_per_item", JNum (item_price_per_item i)) ].

(** The body of [checkedProducts.forEach]; it runs outside any [try].
    [parseFloat(checkbox.dataset.price)] is the price the row was built from. *)
Fixpoint collect_items (div : list child) (boxes : list product_row)
    (items : list item) (k : list item -> task page) : task page :=
  match boxes with
  | [] => k items
  | checkbox :: rest =>
      let productName := checkbox_value checkbox in
      match quantityInput div productName with
      | None => Throw "TypeError: quantityInput is null"
      | Some input =>
          let quantity := parseInt (quantity_value input) in
          let price := price_per_item (row_product checkbox) in
          if gt quantity (of_Z 0) then
            collect_items div rest
              (items ++ [{| item_product_name := productName;
                            item_quantity := quantity;
                            item_price_per_item := price |}]) k
          else
            ConsoleWarn ("Invalid quantity for " ++ productName)%string
              (collect_items div rest items k)
      end
  end.

Definition orderPayload (selectedSupplierName : string) (items : list item) : json :=
  JObj [ ("supplier_name", JStr selectedSupplierName);
         ("items", JArr (map item_json items)) ].

Definition submitNewOrder_catch : task page :=
  ConsoleError "Error submitting order:"
    (Alert "An unexpected error occurred while submitting the order." Done).

Definition post_order (selectedSupplierName : string) (items : list item) : request :=
  {| method := "POST"; url := (API_URL ++ "/orders/")%string;
     headers := json_headers;
     body := Some (orderPayload selectedSupplierName items) |}.

(** What follows [await fetch(...)] in [submitNewOrder]. *)
Definition submitNewOrder_settled (o : outcome) : task page :=
  match o with
  | NetworkError _ => submitNewOrder_catch
  | Resolved response =>
      match response_json response with
      | SyntaxError _ => submitNewOrder_catch
      | Json data =>
          if ok response then
            Alert ("Order " ++ or_else (data_order_reference_id data) ""
                     ++ " created successfully!")%string
              (Modify reset_form
                 (Modify (set_productsForOrderDiv
                            [Para "Please select a supplier to see products."])
                    (Call loadAllOrders Done)))
          else
            Alert ("Error creating order: "
                     ++ or_else (detail data) (statusText response))%string
              Done
      end
  end.

Definition submitNewOrder : task page :=
  Get (fun s =>
    let selectedSupplierName := supplierSelect_value s in
    if negb (truthy selectedSupplierName) then
      Alert "Please select a supplier." Done
    else
      let boxes := checkedProducts (productsForOrderDiv s) in
      if length boxes =? 0 then
        Alert "Please select at least one product to order." Done
      else
        collect_items (productsForOrderDiv s) boxes [] (fun items =>
          if length items =? 0 then
            Alert "Please ensure all selected products have a quantity greater than 0." Done
          else
            Fetch (post_order selectedSupplierName items) submitNewOrder_settled)).

(** ** markOrderComplete *)

Definition markOrderComplete_catch : task page :=
  ConsoleError "Error completing order:"
    (Alert "An unexpected error occurred while marking the order as complete." Done).

Definition put_complete (orderRefId : string) : request :=
  {| method := "PUT";
     url := (API_URL ++ "/orders/complete/placeholder?order_ref_id=" ++ orderRefId)%string;
     headers := json_headers;
     body := None |}.

(** What follows [await fetch(...)] in [markOrderComplete]. *)
Definition markOrderComplete_settled (o : outcome) : task page :=
  match o with
  | NetworkError _ => markOrderComplete_catch
  | Resolved response =>
      match response_json response with
      | SyntaxError _ => markOrderComplete_catch
      | Json data =>
          if ok response then
            Alert (or_else (message data) "Order marked as completed!")
              (Call loadAllOrders Done)
          else
            Alert ("Error marking order as complete: "
                     ++ or_else (detail data) (statusText response))%string
              Done
      end
  end.

Definition markOrderComplete (orderRefId : string) : task page :=
  Confirm ("Confirm receipt of order " ++ orderRefId
             ++ "? This will mark it as 'Completed'.")%string
    (fun confirmed =>
       if negb confirmed then Done
       else Fetch (put_complete orderRefId) markOrderComplete_settled).

(** ** What the specification says of the order form *)

(** The quantity the submit handler parses for a checked product. *)
Definition parsed_quantity (div : list child) (checkbox : product_row) : number :=
  match quantityInput div (checkbox_value checkbox) with
  | Some input => parseInt (quantity_value input)
  | None => NaN
  end.

(** A supplier is selected and some checked product has a quantity above 0. *)
Definition orderable (s : page) : Prop :=
  supplierSelect_value s <> ""
  /\ exists checkbox,
       In checkbox (checkedProducts (productsForOrderDiv s))
       /\ gt (parsed_quantity (productsForOrderDiv s) checkbox) (of_Z 0) = true.

Definition validation_alerts : list string :=
  [ "Please select a supplier.";
    "Please select at least one product to order.";
    "Please ensure all selected products have a quantity greater than 0." ].

(** The items and the warnings the loop over the checked products yields. *)
Definition accepted (div : list child) (boxes : list product_row) : list item :=
  flat_map (fun checkbox =>
    let quantity := parsed_quantity div checkbox in
    if gt quantity (of_Z 0) then
      [{| item_product_name := checkbox_value checkbox;
          item_quantity := quantity;
          item_price_per_item := price_per_item (row_product checkbox) |}]
    else []) boxes.

Definition invalid_warnings (div : list child) (boxes : list product_row) : list event :=
  flat_map (fun checkbox =>
    if gt (parsed_quantity div checkbox) (of_Z 0) then []
    else [LoggedWarn ("Invalid quantity for " ++ checkbox_value checkbox)%string]) boxes.

(** ** Sample pages *)

Definition sample_supplier : supplier :=
  {| company_name := Some "Acme";
     products := Some [ {| product_name := "Bolt"; price_per_item := of_Z 2 |};
                        {| product_name := "Nut"; price_per_item := of_Z 1 |} ] |}.

Definition empty_page : page :=
  {| suppliersData := [];
     supplierSelect_options := [];
     supplierSelect_value := "";
     productsForOrderDiv := [];
     allOrdersListDiv := [];
     styleSheet := Some [] |}.

(** The suppliers are loaded and the user has picked Acme. *)
Definition acme_selected : page :=
  {| suppliersData := [sample_supplier];
     supplierSelect_options :=
       [ {| option_value := ""; option_text := "Select supplier..."; supplierInfo := None |};
         {| option_value := "Acme"; option_text := "Acme";
            supplierInfo := Some sample_supplier |} ];
     supplierSelect_value := "Acme";
     productsForOrderDiv := [];
     allOrdersListDiv := [];
     styleSheet := Some [] |}.

(** Then the products are shown, Bolt is ticked and 3 is typed. *)
Definition bolt_order : page :=
  type_quantity 0 "3"
    (page_after (sync accepts (checkbox_change 0)
       (page_after (sync accepts displayProductsForOrder acme_selected)))).

(** ** Event listeners *)

Inductive listener : Type :=
| DOMContentLoaded                       (* document *)
| SupplierChange                         (* supplierSelect, change *)
| CheckboxChange (i : nat)               (* a product checkbox, change *)
| Submit                                 (* newOrderForm, submit *)
| RefreshClick                           (* refreshOrdersBtn, click *)
| CompleteClick (orderRefId : string).   (* a Confirm Receipt button, click *)

Definition handler (l : listener) : task page :=
  match l with
  | DOMContentLoaded => Call fetchSuppliers (Call loadAllOrders Done)
  | SupplierChange => displayProductsForOrder
  | CheckboxChange i => checkbox_change i
  | Submit => submitNewOrder
  | RefreshClick => loadAllOrders
  | CompleteClick orderRefId => markOrderComplete orderRefId
  end.

End Owner.

(* ===================================================================== *)
(** * The supplier page *)
(* ===================================================================== *)

Module Supplier.
Import Js Api Async.

(** ** The page *)

(** One [div.product-entry]; an input that is missing from the row is [None]. *)
Record product_entry : Type := {
  product_name_input : option string;    (* .product-name *)
  product_price_input : option string;   (* .product-price *)
  product_min_qty_input : option string  (* .product-min-qty *)
}.

Record page : Type := {
  registerSection : option string;       (* style.display; None: no such element *)
  loginSection : option string;
  ordersSection : option string;
  ordersList : list html;
  loggedInSupplierNameSpan : string;     (* textContent *)
  productsListDiv : list product_entry;
  companyName : string;                  (* registration form fields *)
  phone : string;
  representative_name : string;
  loginCompanyName : string;             (* login form fields *)
  loginPhone : string
}.

Definition set_sections (reg log ord : option string) (s : page) : page :=
  {| registerSection := reg; loginSection := log; ordersSection := ord;
     ordersList := ordersList s;
     loggedInSupplierNameSpan := loggedInSupplierNameSpan s;
     productsListDiv := productsListDiv s;
     companyName := companyName s; phone := phone s;
     representative_name := representative_name s;
     loginCompanyName := loginCompanyName s; loginPhone := loginPhone s |}.

Definition set_ordersList (v : list html) (s : page) : page :=
  {| registerSection := registerSection s; loginSection := loginSection s;
     ordersSection := ordersSection s;
     ordersList := v;
     loggedInSupplierNameSpan := loggedInSupplierNameSpan s;
     productsListDiv := productsListDiv s;
     companyName := companyName s; phone := phone s;
     representative_name := representative_name s;
     loginCompanyName := loginCompanyName s; loginPhone := loginPhone s |}.

Definition set_loggedInSupplierName (v : string) (s : page) : page :=
  {| registerSection := registerSection s; loginSection := loginSection s;
     ordersSection := ordersSection s;
     ordersList := ordersList s;
     loggedInSupplierNameSpan := v;
     productsListDiv := productsListDiv s;
     companyName := companyName s; phone := phone s;
     representative_name := representative_name s;
     loginCompanyName := loginCompanyName s; loginPhone := loginPhone s |}.

Definition set_productsListDiv (v : list product_entry) (s : page) : page :=
  {| registerSection := registerSection s; loginSection := loginSection s;
     ordersSection := ordersSection s;
     ordersList := ordersList s;
     loggedInSupplierNameSpan := loggedInSupplierNameSpan s;
     productsListDiv := v;
     companyName := companyName s; phone := phone s;
     representative_name := representative_name s;
     loginCompanyName := loginCompanyName s; loginPhone := loginPhone s |}.

(** [if (section) section.style.display = d] *)
Definition show (d : string) (section : option string) : option string :=
  match section with Some _ => Some d | None => None end.

Definition p (text : string) : html := Elem "p" [] [Text text].

Definition p_red (text : string) : html :=
  Elem "p" [("style", "color: red;")] [Text text].

(** ** addProductEntry and its remove button *)

Definition addProductEntry : task page :=
  Modify (fun s => set_productsListDiv
                     (productsListDiv s
                        ++ [{| product_name_input := Some "";
                               product_price_input := Some "";
                               product_min_qty_input := Some "" |}]) s)
    Done.

Definition remove_product (i : nat) : task page :=
  Modify (fun s => set_productsListDiv (remove_nth i (productsListDiv s)) s) Done.

(** ** The registration form *)

Record product : Type := {
  product_name : string;
  price_per_item : number;
  minimum_quantity : number
}.

Definition product_json (pr : product) : json :=
  JObj [ ("product_name", JStr (product_name pr));
         ("price_per_item", JNum (price_per_item pr));
         ("minimum_quantity", JNum (minimum_quantity pr)) ].

(** What one turn of [productEntries.forEach] does with a row. *)
Inductive row_check : Type :=
| Valid (pr : product)
| Invalid
| Incomplete.

Definition check_entry (entry : product_entry) : row_check :=
  match product_name_input entry, product_price_input entry,
        product_min_qty_input entry with
  | Some nameValue, Some priceValue, Some minQtyValue =>
      let productName := trim nameValue in
      let pricePerItem := parseFloat priceValue in
      let minimumQuantity := parseInt minQtyValue in
      if truthy productName && negb (isNaN pricePerItem)
         && ge pricePerItem (of_Z 0)
         && negb (isNaN minimumQuantity) && ge minimumQuantity (of_Z 1)
      then Valid {| product_name := productName;
                    price_per_item := pricePerItem;
                    minimum_quantity := minimumQuantity |}
      else Invalid
  | _, _, _ => Incomplete
  end.

(** The loop over the rows: it threads [products] and [formIsValid]. *)
Fixpoint collect_products (entries : list product_entry)
    (products : list product) (formIsValid : bool)
    (k : list product -> bool -> task page) : task page :=
  match entries with
  | [] => k products formIsValid
  | entry :: rest =>
      match check_entry entry with
      | Valid pr => collect_products rest (products ++ [pr]) formIsValid k
      | Invalid =>
          ConsoleWarn "Invalid product entry skipped:"
            (collect_products rest products false k)
      | Incomplete =>
          ConsoleWarn "Incomplete product entry skipped:"
            (collect_products rest products false k)
      end
  end.

Definition register_payload (s : page) (products : list product) : json :=
  JObj [ ("company_name", JStr (companyName s));
         ("phone", JStr (phone s));
         ("representative_name", JStr (representative_name s));
         ("products", JArr (map product_json products)) ].

Definition post_register (s : page) (products : list product) : request :=
  {| method := "POST"; url := (API_URL ++ "/suppliers/register")%string;
     headers := json_headers;
     body := Some (register_payload s products) |}.

Definition clear_entry (e : product_entry) : product_entry :=
  let clear := option_map (fun _ : string => "") in
  {| product_name_input := clear (product_name_input e);
     product_price_input := clear (product_price_input e);
     product_min_qty_input := clear (product_min_qty_input e) |}.

(** [registerForm.reset()], then all rows but the first are removed and the
    inputs of the first one are emptied. *)
Definition reset_register (s : page) : page :=
  {| registerSection := registerSection s; loginSection := loginSection s;
     ordersSection := ordersSection s;
     ordersList := ordersList s;
     loggedInSupplierNameSpan := loggedInSupplierNameSpan s;
     productsListDiv := map clear_entry (firstn 1 (productsListDiv s));
     companyName := ""; phone := ""; representative_name := "";
     loginCompanyName := loginCompanyName s; loginPhone := loginPhone s |}.

Definition register_catch : task page :=
  ConsoleError "Registration Error:"
    (Alert "An unexpected error occurred during registration." Done).

(** What follows [await fetch(...)] in the registration handler. *)
Definition register_settled (o : outcome) : task page :=
  match o with
  | NetworkError _ => register_catch
  | Resolved response =>
      match response_json response with
      | SyntaxError _ => register_catch
      | Json data =>
          if ok response then
            Alert (or_else (message data) "Supplier registered successfully!")
              (Modify reset_register Done)
          else
            Alert ("Registration Error: "
                     ++ or_else (detail data) (statusText response))%string
              Done
      end
  end.

Definition registerFormSubmitHandler : task page :=
  Get (fun s =>
    collect_products (productsListDiv s) [] true (fun products formIsValid =>
      if negb formIsValid then
        Alert "Please ensure all product fields (Name, Price >= 0, Min Qty >= 1) are correctly filled." Done
      else if length products =? 0 then
        Alert "Please add at least one valid product." Done
      else
        Fetch (post_register s products) register_settled)).

(** ** loadOrders *)

Definition item_text (item : item) : list html :=
  [ Text (item_product_name item); Text " (Qty: "; NumText (item_quantity item);
    Text ", Price/Unit: "; Fixed2 (item_price_per_item item); Text ")" ].

Definition status_class (status : string) : string :=
  ("status-" ++ replace_first_space (toLowerCase status))%string.

Definition approve_button (order : order) : html :=
  Elem "button"
    [ ("class", "approve-btn");
      ("onclick", ("approveOrder('" ++ order_reference_id order ++ "')")%string) ]
    [Text "Approve Order"].

Definition total_cell (order : order) : html :=
  match total_amount order with
  | Some n => if truthy_num n then Fixed2 n else Text "Not calculated"
  | None => Text "Not calculated"
  end.

Definition status_cell (order : order) : html :=
  Elem "span" [("class", ("order-status " ++ status_class (status order))%string)]
    [Text (status order)].

Definition order_actions (order : order) : list html :=
  if String.eqb (status order) "Pending" then [approve_button order] else [].

Definition order_li (order : order) : html :=
  Elem "li" [("data-order-id", order_reference_id order)]
    [ Elem "p" [] [Elem "strong" [] [Text "Order ID:"]; Text (order_reference_id order)];
      Elem "p" [] (Elem "strong" [] [Text "Products:"]
                     :: join [Elem "br" [] []] (map item_text (items order)));
      Elem "p" [] [Elem "strong" [] [Text "Status:"]; status_cell order];
      Elem "p" [] [Elem "strong" [] [Text "Total Amount:"]; total_cell order];
      Elem "div" [("class", "order-actions")] (order_actions order) ].

Definition get_orders (company : string) : request :=
  GET (API_URL ++ "/orders/supplier/" ++ encodeURIComponent company)%string.

(** [error.message || "Error loading orders."] goes to the list. *)
Definition loadOrders_catch (error_message : string) (k : task page) : task page :=
  ConsoleError "Error loading orders:"
    (Modify (set_ordersList [p_red (or_else (Some error_message) "Error loading orders.")]) k).

(** What follows [await fetch(...)] in [loadOrders]; [k] is what the
    caller does once [loadOrders] has returned. *)
Definition loadOrders_settled (k : task page) (o : outcome) : task page :=
  match o with
  | NetworkError msg => loadOrders_catch msg k
  | Resolved response =>
      if negb (ok response) then
        let errorDetail :=
          match response_json response with
          | Json errorData => or_else (detail errorData) (statusText response)
          | SyntaxError _ => statusText response
          end in
        loadOrders_catch
          ("Error loading orders: " ++ errorDetail ++ " (Status: "
             ++ string_of_nat (status_code response) ++ ")")%string k
      else
        match response_json response with
        | SyntaxError msg => loadOrders_catch msg k
        | Json data =>
            Modify (set_ordersList [])
              (match orders data with
               | Some (order :: rest) =>
                   Modify (fun s => set_ordersList
                                      (ordersList s ++ map order_li (order :: rest)) s) k
               | _ =>
                   Modify (set_ordersList [p "No orders to display for this supplier."]) k
               end)
        end
  end.

Definition loadOrders (company : string) (k : task page) : task page :=
  Modify (set_ordersList [p "Loading orders..."])
    (Fetch (get_orders company) (loadOrders_settled k)).

(** ** showOrdersView and the login form *)

Definition showOrdersView (company : string) (k : task page) : task page :=
  Modify (set_loggedInSupplierName company)
    (Modify (fun s => set_sections (show "none" (registerSection s))
                                   (show "none" (loginSection s))
                                   (show "block" (ordersSection s)) s)
       (loadOrders company k)).

Definition login_catch : task page :=
  ConsoleError "Login Error:"
    (Alert "An unexpected error occurred during login." Done).

Definition post_login (company phone : string) : request :=
  {| method := "POST"; url := (API_URL ++ "/suppliers/login")%string;
     headers := json_headers;
     body := Some (JObj [("company_name", JStr company); ("phone", JStr phone)]) |}.

(** What follows [await fetch(...)] in the login handler. *)
Definition login_settled (company : string) (o : outcome) : task page :=
  match o with
  | NetworkError _ => login_catch
  | Resolved response =>
      match response_json response with
      | SyntaxError _ => login_catch
      | Json data =>
          if ok response then
            Alert (or_else (message data) "Login successful!")
              (showOrdersView company Done)
          else
            Alert ("Login Error: "
                     ++ or_else (detail data) (statusText response))%string
              Done
      end
  end.

Definition loginFormSubmitHandler : task page :=
  Get (fun s =>
    let company := trim (loginCompanyName s) in
    let phone := trim (loginPhone s) in
    if negb (truthy company) || negb (truthy phone) then
      Alert "Please enter both Company Name and Phone Number." Done
    else
      Fetch (post_login company phone) (login_settled company)).

(** ** approveOrder *)

Definition approveOrder_catch : task page :=
  ConsoleError "Error approving order:"
    (Alert "An unexpected error occurred while approving the order." Done).

Definition put_approve (orderRefId : string) : request :=
  {| method := "PUT";
     url := (API_URL ++ "/orders/approve/placeholder?order_ref_id=" ++ orderRefId)%string;
     headers := json_headers;
     body := None |}.

(** What follows [await fetch(...)] in [approveOrder]. *)
Definition approveOrder_settled (o : outcome) : task page :=
  match o with
  | NetworkError _ => approveOrder_catch
  | Resolved response =>
      match response_json response with
      | SyntaxError _ => approveOrder_catch
      | Json data =>
          if ok response then
            Alert (or_else (message data) "Order approved successfully!")
              (Get (fun s =>
                 let company := loggedInSupplierNameSpan s in
                 if truthy company then loadOrders company Done
                 else ConsoleError
                        "Could not determine the company name to reload orders."
                        Done))
          else
            Alert ("Error approving order: "
                     ++ or_else (detail data) (statusText response))%string
              Done
      end
  end.

Definition approveOrder (orderRefId : string) : task page :=
  Confirm ("Are you sure you want to approve order " ++ orderRefId ++ "?")%string
    (fun confirmed =>
       if negb confirmed then Done
       else Fetch (put_approve orderRefId) approveOrder_settled).

(** ** What the specification says of the registration form *)




(** The products, the flag and the warnings the loop over the rows yields. *)
Definition valid_products (entries : list product_entry) : list product :=
  flat_map (fun entry =>
    match check_entry entry with Valid pr => [pr] | _ => [] end) entries.

Definition all_valid (entries : list product_entry) : bool :=
  forallb (fun entry =>
    match check_entry entry with Valid _ => true | _ => false end) entries.

Definition entry_warnings (entries : list product_entry) : list event :=
  flat_map (fun entry =>
    match check_entry entry with
    | Valid _ => []
    | Invalid => [LoggedWarn "Invalid product entry skipped:"]
    | Incomplete => [LoggedWarn "Incomplete product entry skipped:"]
    end) entries.

(** ** Sample pages *)

Definition empty_page : page :=
  {| registerSection := Some ""; loginSection := Some ""; ordersSection := Some "none";
     ordersList := [];
     loggedInSupplierNameSpan := "";
     productsListDiv := [];
     companyName := ""; phone := ""; representative_name := "";
     loginCompanyName := ""; loginPhone := "" |}.

(** Acme registers one product, Bolt, at 2.50 and at least 10 pieces. *)
Definition acme_registration : page :=
  {| registerSection := Some ""; loginSection := Some ""; ordersSection := Some "none";
     ordersList := [];
     loggedInSupplierNameSpan := "";
     productsListDiv :=
       [{| product_name_input := Some " Bolt ";
           product_price_input := Some "2.50";
           product_min_qty_input := Some "10" |}];
     companyName := "Acme"; phone := "050-1234567"; representative_name := "Dana";
     loginCompanyName := "Acme"; loginPhone := "050-1234567" |}.

(** ** Event listeners *)

(** The orders section is hidden until login: when the script runs, or, if
    the section is not there yet, once the document is loaded. *)
Definition hide_orders : task page :=
  Modify (fun s => set_sections (registerSection s) (loginSection s)
                                (show "none" (ordersSection s)) s)
    Done.

Inductive listener : Type :=
| DOMContentLoaded                       (* document, when #orders was missing *)
| AddProductClick                        (* addProductBtn, click *)
| RemoveProductClick (i : nat)           (* a row's remove button, click *)
| RegisterSubmit                         (* registerForm, submit *)
| LoginSubmit                            (* loginForm, submit *)
| ApproveClick (orderRefId : string).    (* an Approve Order button, click *)

Definition handler (l : listener) : task page :=
  match l with
  | DOMContentLoaded => hide_orders
  | AddProductClick => addProductEntry
  | RemoveProductClick i => remove_product i
  | RegisterSubmit => registerFormSubmitHandler
  | LoginSubmit => loginFormSubmitHandler
  | ApproveClick orderRefId => approveOrder orderRefId
  end.

End Supplier.

(* ===================================================================== *)
(** * The SQL script: People, Family_Tree, Ex1 and Ex2 *)
(* ===================================================================== *)

Module Sql.

(** ** Three-valued logic: [None] is UNKNOWN / NULL *)

Definition eq3 (a b : option Z) : option bool :=
  match a, b with
  | Some x, Some y => Some (Z.eqb x y)
  | _, _ => None
  end.

Definition eq3s (a b : option string) : option bool :=
  match a, b with
  | Some x, Some y => Some (String.eqb x y)
  | _, _ => None
  end.

Definition not3 (a : option bool) : option bool := option_map negb a.

Definition or3 (a b : option bool) : option bool :=
  match a, b with
  | Some true, _ | _, Some true => Some true
  | Some false, Some false => Some false
  | _, _ => None
  end.

Definition and3 (a b : option bool) : option bool :=
  match a, b with
  | Some false, _ | _, Some false => Some false
  | Some true, Some true => Some true
  | _, _ => None
  end.

(** A row passes WHERE / ON / CASE WHEN only when the condition is TRUE. *)
Definition holds (a : option bool) : bool :=
  match a with Some true => true | _ => false end.

Definition is_not_null {A} (a : option A) : bool :=
  match a with Some _ => true | None => false end.

(** ** The tables *)

Record person : Type := {
  Person_Id : Z;                         (* PRIMARY KEY *)
  Personal_Name : option string;
  Family_Name : option string;
  Gender : option string;
  Father_Id : option Z;
  Mother_Id : option Z;
  Spouse_Id : option Z
}.

Record relation : Type := {
  ft_Person_Id : option Z;
  Relative_Id : option Z;
  Connection_Type : string
}.

Definition sample_People : list person :=
  [ {| Person_Id := 111; Personal_Name := Some "David"; Family_Name := Some "Cohen";
       Gender := Some "M"; Father_Id := None; Mother_Id := None; Spouse_Id := Some 222%Z |};
    {| Person_Id := 222; Personal_Name := Some "Sarah"; Family_Name := Some "Cohen";
       Gender := Some "F"; Father_Id := None; Mother_Id := None; Spouse_Id := None |};
    {| Person_Id := 333; Personal_Name := Some "Michael"; Family_Name := Some "Cohen";
       Gender := Some "M"; Father_Id := Some 111%Z; Mother_Id := Some 222%Z;
       Spouse_Id := None |};
    {| Person_Id := 444; Personal_Name := Some "Rachel"; Family_Name := Some "Cohen";
       Gender := Some "F"; Father_Id := Some 111%Z; Mother_Id := Some 222%Z;
       Spouse_Id := None |} ]%Z.

(** ** Ex1: the six SELECTs of the INSERT *)

Definition is_male (p : person) : bool := holds (eq3s (Gender p) (Some "M")).

Definition row (a b : option Z) (t : string) : relation :=
  {| ft_Person_Id := a; Relative_Id := b; Connection_Type := t |}.

Definition select_fathers (People : list person) : list relation :=
  map (fun p => row (Some (Person_Id p)) (Father_Id p) "father")
      (filter (fun p => is_not_null (Father_Id p)) People).

Definition select_mothers (People : list person) : list relation :=
  map (fun p => row (Some (Person_Id p)) (Mother_Id p) "mother")
      (filter (fun p => is_not_null (Mother_Id p)) People).

Definition sibling_on (p1 p2 : person) : bool :=
  holds (and3 (or3 (eq3 (Father_Id p1) (Father_Id p2))
                   (eq3 (Mother_Id p1) (Mother_Id p2)))
              (not3 (eq3 (Some (Person_Id p1)) (Some (Person_Id p2))))).

Definition select_siblings (People : list person) : list relation :=
  flat_map (fun p1 =>
    flat_map (fun p2 =>
      if sibling_on p1 p2
         && (is_not_null (Father_Id p1) && is_not_null (Mother_Id p1))
      then [row (Some (Person_Id p1)) (Some (Person_Id p2))
                (if is_male p1 then "brother" else "sister")]
      else []) People) People.

Definition select_children_of_father (People : list person) : list relation :=
  map (fun p => row (Father_Id p) (Some (Person_Id p))
                    (if is_male p then "son" else "daughter"))
      (filter (fun p => is_not_null (Father_Id p)) People).

Definition select_children_of_mother (People : list person) : list relation :=
  map (fun p => row (Mother_Id p) (Some (Person_Id p))
                    (if is_male p then "son" else "daughter"))
      (filter (fun p => is_not_null (Mother_Id p)) People).

Definition select_spouses (People : list person) : list relation :=
  map (fun p => row (Some (Person_Id p)) (Spouse_Id p)
                    (if is_male p then "wife" else "husband"))
      (filter (fun p => is_not_null (Spouse_Id p)) People).

Definition Ex1_select (People : list person) : list relation :=
  select_fathers People ++ select_mothers People ++ select_siblings People
    ++ select_children_of_father People ++ select_children_of_mother People
    ++ select_spouses People.

(** PRIMARY KEY (Person_Id, Relative_Id): both columns are filled and no
    two rows of the table agree on both. *)
Definition key (r : relation) : option (Z * Z) :=
  match ft_Person_Id r, Relative_Id r with
  | Some a, Some b => Some (a, b)
  | _, _ => None
  end.

Definition key_eqb (a b : Z * Z) : bool :=
  Z.eqb (fst a) (fst b) && Z.eqb (snd a) (snd b).

Fixpoint distinct (l : list (Z * Z)) : bool :=
  match l with
  | [] => true
  | x :: r => negb (existsb (key_eqb x) r) && distinct r
  end.

Definition primary_key_ok (table : list relation) : bool :=
  forallb (fun r => is_not_null (key r)) table
  && distinct (flat_map (fun r => match key r with Some k => [k] | None => [] end) table).

(** INSERT INTO Family_Tree: the statement adds all the rows or, when the
    key is violated, fails and adds none ([None]). *)
Definition insert_into (Family_Tree rows : list relation) : option (list relation) :=
  if primary_key_ok (Family_Tree ++ rows) then Some (Family_Tree ++ rows) else None.

Definition Ex1 (Family_Tree : list relation) (People : list person)
  : option (list relation) :=
  insert_into Family_Tree (Ex1_select People).

(** The table once the statement has run: a failed INSERT leaves it as it was. *)
Definition Family_Tree_after (Family_Tree : list relation) (People : list person)
  : list relation :=
  match Ex1 Family_Tree People with
  | Some table => table
  | None => Family_Tree
  end.

(** A person whose two parent columns name the same id. *)
Definition same_parent_People : list person :=
  [ {| Person_Id := 1; Personal_Name := Some "Adam"; Family_Name := None;
       Gender := Some "M"; Father_Id := Some 2%Z; Mother_Id := Some 2%Z;
       Spouse_Id := None |} ]%Z.

(** ** What the specification says of Ex1 *)

Definition shares_parent (p1 p2 : person) : Prop :=
  (exists f, Father_Id p1 = Some f /\ Father_Id p2 = Some f)
  \/ (exists m, Mother_Id p1 = Some m /\ Mother_Id p2 = Some m).

(** [t] is [male] when the gender of [p] is 'M' and [other] otherwise. *)
Definition labelled (p : person) (male other t : string) : Prop :=
  (Gender p = Some "M" -> t = male) /\ (Gender p <> Some "M" -> t = other).

(** The father, mother, child and spouse rows of every person are in [table]. *)
Definition immediate_family (People : list person) (table : list relation) : Prop :=
  forall p, In p People ->
    (forall f, Father_Id p = Some f ->
       In (row (Some (Person_Id p)) (Some f) "father") table
       /\ exists t, In (row (Some f) (Some (Person_Id p)) t) table
                    /\ labelled p "son" "daughter" t)
    /\ (forall m, Mother_Id p = Some m ->
         In (row (Some (Person_Id p)) (Some m) "mother") table
         /\ exists t, In (row (Some m) (Some (Person_Id p)) t) table
                      /\ labelled p "son" "daughter" t)
    /\ (forall sp, Spouse_Id p = Some sp ->
         exists t, In (row (Some (Person_Id p)) (Some sp) t) table
                   /\ labelled p "wife" "husband" t).

(** ** Ex2: the UPDATE that completes missing spouse links *)

(** SELECT p1.Person_Id FROM People p1 WHERE p1.Spouse_Id = People.Person_Id *)
Definition listed_by (People : list person) (id : Z) : list Z :=
  map Person_Id (filter (fun p1 => holds (eq3 (Spouse_Id p1) (Some id))) People).

(** A subquery used as a value: no row is NULL, one row is its value, more
    rows are an error. *)
Definition scalar (rows : list Z) : option (option Z) :=
  match rows with
  | [] => Some None
  | [x] => Some (Some x)
  | _ => None
  end.

Definition set_Spouse_Id (v : option Z) (p : person) : person :=
  {| Person_Id := Person_Id p; Personal_Name := Personal_Name p;
     Family_Name := Family_Name p; Gender := Gender p;
     Father_Id := Father_Id p; Mother_Id := Mother_Id p; Spouse_Id := v |}.

(** The WHERE clause of the UPDATE. *)
Definition missing_link (People : list person) (p : person) : bool :=
  negb (is_not_null (Spouse_Id p))
  && negb (match listed_by People (Person_Id p) with [] => true | _ => false end).

Definition update_row (People : list person) (p : person) : option person :=
  if missing_link People p then
    match scalar (listed_by People (Person_Id p)) with
    | Some v => Some (set_Spouse_Id v p)
    | None => None
    end
  else Some p.

Fixpoint update_rows (People rows : list person) : option (list person) :=
  match rows with
  | [] => Some []
  | p :: rest =>
      match update_row People p, update_rows People rest with
      | Some p', Some rest' => Some (p' :: rest')
      | _, _ => None
      end
  end.

(** Every subquery reads the table as it was before the statement. *)
Definition Ex2 (People : list person) : option (list person) :=
  update_rows People People.

(** ** What the specification says of Ex2 *)

(** Each person is listed as spouse by at most one row. *)
Definition listed_once (People : list person) : Prop :=
  forall p, In p People -> length (listed_by People (Person_Id p)) <= 1.

(** Row [p'] is row [p] after the UPDATE: a person without spouse whom [q]
    lists as spouse gets [q]; every other row is unchanged. *)
Definition completed (People : list person) (p p' : person) : Prop :=
  p' = set_Spouse_Id (Spouse_Id p') p
  /\ (Spouse_Id p = None ->
      forall q, In q People -> Spouse_Id q = Some (Person_Id p) ->
      Spouse_Id p' = Some (Person_Id q))
  /\ (Spouse_Id p <> None
      \/ (forall q, In q People -> Spouse_Id q <> Some (Person_Id p)) ->
      p' = p).

(** Nobody without spouse is listed as spouse by somebody. *)
Definition no_missing_link (People : list person) : Prop :=
  forall p q, In p People -> In q People ->
    Spouse_Id p = None -> Spouse_Id q <> Some (Person_Id p).

(** What the UPDATE makes of row [p]. *)
Definition updated (People : list person) (p p' : person) : Prop :=
  update_row People p = Some p'
  /\ completed People p p'
  /\ Person_Id p' = Person_Id p
  /\ (Spouse_Id p' = None ->
      Spouse_Id p = None /\ listed_by People (Person_Id p) = [])
  /\ (forall x, Spouse_Id p' = Some x ->
      Spouse_Id p = Some x
      \/ (Spouse_Id p = None /\ In x (listed_by People (Person_Id p)))).

End Sql.

(* ===================================================================== *)
(** * What the specification says of the two pages *)
(* ===================================================================== *)

Module Pages.
Import Js Api Async.

(** ** Failed requests *)

(** When the request of [t] settles with [o], the failure is logged with
    [console.error] under [label] and shown in the page; no dialog opens and
    nothing is sent again. *)
Definition logged_inline {St} (user : string -> bool) (t : task St) (o : outcome)
    (label : string) (shown : St -> Prop) : Prop :=
  forall s, exists r,
    respond user t s o = Some r
    /\ alerts (events r) = []
    /\ errors_logged (events r) = [label]
    /\ requests (events r) = []
    /\ shown (page_after r).

(** When the request of [t] settles with [o], one dialog opens; the failure
    is logged under [label] when it was thrown (no response, or a body that
    does not parse) and not otherwise; nothing is sent again. *)
Definition alerted_once {St} (user : string -> bool) (t : task St) (o : outcome)
    (label : string) : Prop :=
  forall s r,
    respond user t s o = Some r ->
    (exists msg, alerts (events r) = [msg])
    /\ errors_logged (events r) = (if thrown o then [label] else [])
    /\ requests (events r) = [].

Definition failure_reports (user : string -> bool) (o : outcome) : Prop :=
  logged_inline user Owner.fetchSuppliers o "Error fetching suppliers:"
    (fun s => Owner.supplierSelect_options s
              = [{| Owner.option_value := "";
                    Owner.option_text := "Error loading suppliers";
                    Owner.supplierInfo := None |}])
  /\ logged_inline user Owner.loadAllOrders o "Error loading orders:"
       (fun s => Owner.allOrdersListDiv s = [Owner.p_red "Error loading orders."])
  /\ (forall company,
        logged_inline user (Supplier.loadOrders company Done) o "Error loading orders:"
          (fun s => exists msg, Supplier.ordersList s = [Supplier.p_red msg]))
  /\ alerted_once user Owner.submitNewOrder o "Error submitting order:"
  /\ (forall id, alerted_once user (Owner.markOrderComplete id) o
                   "Error completing order:")
  /\ alerted_once user Supplier.registerFormSubmitHandler o "Registration Error:"
  /\ alerted_once user Supplier.loginFormSubmitHandler o "Login Error:"
  /\ (forall id, alerted_once user (Supplier.approveOrder id) o
                   "Error approving order:").

(** ** suppliersData *)

(** The value [fetchSuppliers] leaves in [suppliersData]. *)
Definition fetched (before : list supplier) (o : outcome) : list supplier :=
  match o with
  | NetworkError _ => before
  | Resolved response =>
      if ok response then
        match response_json response with
        | Json data => or_nil (suppliers data)
        | SyntaxError _ => before
        end
      else before
  end.

(** ** Orders *)

Definition with_items (l : list item) (o : order) : order :=
  {| order_reference_id := order_reference_id o;
     supplier_name := supplier_name o;
     items := l;
     total_amount := total_amount o;
     status := status o |}.

(** The status and the total a page shows are the ones the response holds,
    whatever the items of the order. *)
Definition shows_backend_values (o : order) : Prop :=
  (forall l, Owner.status_cell (with_items l o) = Owner.status_cell o
             /\ Owner.total_cell (with_items l o) = Owner.total_cell o
             /\ Supplier.status_cell (with_items l o) = Supplier.status_cell o
             /\ Supplier.total_cell (with_items l o) = Supplier.total_cell o)
  /\ elements "span" (Owner.status_cell o)
     = [Elem "span" [("class", ("order-status " ++ Owner.status_class (status o))%string)]
          [Text (status o)]]
  /\ (forall n, Owner.total_cell o = Fixed2 n \/ Supplier.total_cell o = Fixed2 n ->
                total_amount o = Some n).

(** A failed fetch, as the browser reports it. *)
Definition offline : outcome := NetworkError "Failed to fetch".

End Pages.

(* ===================================================================== *)
(** * Closed forms and sample data for further properties *)
(* ===================================================================== *)

Module Scenarios.
Import Js Api Async.

(** ** The owner page *)

(** The options [fetchSuppliers] appends: one per supplier with a name. *)
Definition supplier_options (l : list supplier) : list Owner.select_option :=
  flat_map (fun supplier =>
    match company_name supplier with
    | Some name =>
        if truthy name then
          [{| Owner.option_value := name; Owner.option_text := name;
              Owner.supplierInfo := Some supplier |}]
        else []
    | None => []
    end) l.

Definition skipped_warnings (l : list supplier) : list event :=
  flat_map (fun supplier =>
    match company_name supplier with
    | Some name =>
        if truthy name then []
        else [LoggedWarn "Skipping supplier with missing data:"]
    | None => [LoggedWarn "Skipping supplier with missing data:"]
    end) l.

(** The dropdown once the request of [fetchSuppliers] has settled. *)
Definition dropdown_after (o : outcome) : list Owner.select_option :=
  match o with
  | NetworkError _ =>
      [{| Owner.option_value := ""; Owner.option_text := "Error loading suppliers";
          Owner.supplierInfo := None |}]
  | Resolved response =>
      if ok response then
        match response_json response with
        | Json data =>
            {| Owner.option_value := ""; Owner.option_text := "Select supplier...";
               Owner.supplierInfo := None |}
              :: supplier_options (or_nil (suppliers data))
        | SyntaxError _ =>
            [{| Owner.option_value := ""; Owner.option_text := "Error loading suppliers";
                Owner.supplierInfo := None |}]
        end
      else
        [{| Owner.option_value := ""; Owner.option_text := "Error loading suppliers";
            Owner.supplierInfo := None |}]
  end.

(** The page once the request of [fetchSuppliers] has settled with [o]. *)
Definition suppliers_loaded (o : outcome) (s : Owner.page) : Owner.page :=
  {| Owner.suppliersData := Pages.fetched (Owner.suppliersData s) o;
     Owner.supplierSelect_options := dropdown_after o;
     Owner.supplierSelect_value := "";
     Owner.productsForOrderDiv := Owner.productsForOrderDiv s;
     Owner.allOrdersListDiv := Owner.allOrdersListDiv s;
     Owner.styleSheet := Owner.styleSheet s |}.

(** The response of GET /orders/ holds orders and all of them can be shown. *)
Definition shows_table (o : outcome) : bool :=
  match o with
  | NetworkError _ => false
  | Resolved response =>
      ok response
      && match response_json response with
         | Json data =>
             match or_nil (orders data) with
             | [] => false
             | l => negb (existsb (fun order =>
                            Owner.has_space (Owner.status_class (status order))) l)
             end
         | SyntaxError _ => false
         end
  end.

(** The orders list once the request of [loadAllOrders] has settled. *)
Definition orders_view (o : outcome) : list html :=
  match o with
  | NetworkError _ => [Owner.p_red "Error loading orders."]
  | Resolved response =>
      if ok response then
        match response_json response with
        | Json data =>
            match or_nil (orders data) with
            | [] => [Owner.p "No orders found."]
            | l =>
                if existsb (fun order =>
                     Owner.has_space (Owner.status_class (status order))) l
                then [Owner.p_red "Error loading orders."]
                else [Owner.orders_table (map Owner.order_row l)]
            end
        | SyntaxError _ => [Owner.p_red "Error loading orders."]
        end
      else [Owner.p_red "Error loading orders."]
  end.

(** The page once the request of [loadAllOrders] has settled with [o]. *)
Definition orders_loaded (o : outcome) (s : Owner.page) : Owner.page :=
  {| Owner.suppliersData := Owner.suppliersData s;
     Owner.supplierSelect_options := Owner.supplierSelect_options s;
     Owner.supplierSelect_value := Owner.supplierSelect_value s;
     Owner.productsForOrderDiv := Owner.productsForOrderDiv s;
     Owner.allOrdersListDiv := orders_view o;
     Owner.styleSheet :=
       if shows_table o then option_map Owner.insert_status_rules (Owner.styleSheet s)
       else Owner.styleSheet s |}.

(** One after the other: [None] when a step has no such request. *)
Definition and_then {St} (c : option (config St)) (f : config St -> option (config St))
  : option (config St) :=
  match c with Some x => f x | None => None end.





(** The response to a created order. *)
Definition created_response : response :=
  {| ok := true; status_code := 200; statusText := "OK";
     response_json :=
       Json {| message := Some "Order created"; detail := None;
               data_order_reference_id := Some "ORD-7";
               suppliers := None; orders := None |} |}.

(** ** The supplier page *)

(** A row as [addProductEntry] creates it. *)
Definition blank_entry : Supplier.product_entry :=
  {| Supplier.product_name_input := Some "";
     Supplier.product_price_input := Some "";
     Supplier.product_min_qty_input := Some "" |}.

(** A response that reports success with a message. *)
Definition welcome_response : response :=
  {| ok := true; status_code := 200; statusText := "OK";
     response_json :=
       Json {| message := Some "Welcome"; detail := None;
               data_order_reference_id := None;
               suppliers := None; orders := None |} |}.


(** A character that cannot end or split a path segment of a URL. *)
Definition url_safe (c : ascii) : Prop := unreserved c = true \/ c = "%"%char.

(** ** The SQL script *)

(** The keys of the rows of Family_Tree. *)
Definition keys_of (table : list Sql.relation) : list (Z * Z) :=
  flat_map (fun r => match Sql.key r with Some k => [k] | None => [] end) table.

(** The sample table once Ex2 has run: Sarah is linked to David. *)
Definition linked_People : list Sql.person :=
  map (fun p => if Z.eqb (Sql.Person_Id p) 222
                then Sql.set_Spouse_Id (Some 111%Z) p else p)
      Sql.sample_People.

End Scenarios.

(* ===================================================================== *)
(** * Properties of the SQL script *)
(* ===================================================================== *)

Module SqlFacts.
Import Sql.

Lemma is_male_iff (p : person) : is_male p = true <-> Gender p = Some "M".
Proof.
  unfold is_male, holds, eq3s.
  destruct (Gender p) as [g|]; [|split; discriminate].
  destruct (String.eqb_spec g "M") as [->|Hne]; split; try reflexivity;
    try discriminate.
  intros [= ->]. now elim Hne.
Qed.

Lemma insert_into_ok (table rows : list relation) :
  primary_key_ok (table ++ rows) = true ->
  insert_into table rows = Some (table ++ rows).
Proof. unfold insert_into. now intros ->. Qed.

Lemma insert_into_fails (table rows : list relation) :
  primary_key_ok (table ++ rows) = false -> insert_into table rows = None.
Proof. unfold insert_into. now intros ->. Qed.

Lemma in_select (People : list person) (f : person -> relation)
    (c : person -> bool) (p : person) :
  In p People -> c p = true -> In (f p) (map f (filter c People)).
Proof. intros Hin Hc. apply in_map, filter_In. now split. Qed.

(** Membership in the sibling SELECT, row by row. *)
Lemma in_select_siblings (People : list person) (r : relation) :
  In r (select_siblings People) <->
  exists p1 p2, In p1 People /\ In p2 People
    /\ sibling_on p1 p2 = true
    /\ is_not_null (Father_Id p1) = true /\ is_not_null (Mother_Id p1) = true
    /\ r = row (Some (Person_Id p1)) (Some (Person_Id p2))
               (if is_male p1 then "brother" else "sister").
Proof.
  unfold select_siblings. rewrite in_flat_map. split.
  - intros (p1 & H1 & Hr). apply in_flat_map in Hr. destruct Hr as (p2 & H2 & Hr).
    destruct (sibling_on p1 p2) eqn:Hon; simpl in Hr; [|contradiction].
    destruct (is_not_null (Father_Id p1)) eqn:Hf; simpl in Hr; [|contradiction].
    destruct (is_not_null (Mother_Id p1)) eqn:Hm; simpl in Hr; [|contradiction].
    destruct Hr as [<-|[]]. exists p1, p2. repeat split; assumption.
  - intros (p1 & p2 & H1 & H2 & Hon & Hf & Hm & ->).
    exists p1. split; [assumption|]. apply in_flat_map. exists p2.
    split; [assumption|]. rewrite Hon, Hf, Hm. simpl. now left.
Qed.

(** What the ON clause of the sibling join says about the two rows. *)
Lemma sibling_on_iff (p1 p2 : person) :
  sibling_on p1 p2 = true <->
  ((exists f, Father_Id p1 = Some f /\ Father_Id p2 = Some f)
   \/ (exists m, Mother_Id p1 = Some m /\ Mother_Id p2 = Some m))
  /\ Person_Id p1 <> Person_Id p2.
Proof.
  unfold sibling_on, holds, and3, or3, not3, eq3; simpl.
  destruct (Z.eqb_spec (Person_Id p1) (Person_Id p2)) as [He|Hne]; simpl.
  - split.
    + destruct (Father_Id p1), (Father_Id p2), (Mother_Id p1), (Mother_Id p2);
        simpl; repeat match goal with |- context [Z.eqb ?a ?b] => destruct (Z.eqb a b) end;
        discriminate.
    + intros [_ Hne]. now elim Hne.
  - split.
    + intros H. split; [|assumption].
      destruct (Father_Id p1) as [f1|], (Father_Id p2) as [f2|];
        destruct (Mother_Id p1) as [m1|], (Mother_Id p2) as [m2|]; simpl in H;
        repeat match type of H with
               | context [Z.eqb ?a ?b] => destruct (Z.eqb_spec a b); subst; simpl in H
               end;
        try discriminate;
        first [ left; eexists; split; reflexivity
              | right; eexists; split; reflexivity ].
    + intros [[(f & -> & ->)|(m & -> & ->)] _]; rewrite Z.eqb_refl.
      * now destruct (Mother_Id p1), (Mother_Id p2); simpl;
          repeat match goal with |- context [Z.eqb ?a ?b] => destruct (Z.eqb a b) end.
      * now destruct (Father_Id p1), (Father_Id p2); simpl;
          repeat match goal with |- context [Z.eqb ?a ?b] => destruct (Z.eqb a b) end.
Qed.

Lemma is_not_null_iff {A} (a : option A) : is_not_null a = true <-> a <> None.
Proof. destruct a; simpl; split; congruence. Qed.

(** ** Ex1 *)

Lemma labelled_is_male (p : person) (male other : string) :
  labelled p male other (if is_male p then male else other).
Proof.
  unfold labelled. destruct (is_male p) eqn:Hm.
  - apply is_male_iff in Hm. split; [reflexivity | congruence].
  - split; [|reflexivity]. intros Hg. apply is_male_iff in Hg. congruence.
Qed.

Lemma immediate_family_select (People : list person) :
  immediate_family People (Ex1_select People).
Proof.
  intros p Hin. unfold Ex1_select. repeat split.
  - apply in_or_app. left.
    replace (Some f) with (Father_Id p) by assumption.
    apply (in_select People (fun p => row (Some (Person_Id p)) (Father_Id p) "father")
             (fun p => is_not_null (Father_Id p))); [assumption|].
    now rewrite H.
  - exists (if is_male p then "son" else "daughter"). split.
    + do 3 (apply in_or_app; right). apply in_or_app. left.
      replace (Some f) with (Father_Id p) by assumption.
      apply (in_select People
               (fun p => row (Father_Id p) (Some (Person_Id p))
                             (if is_male p then "son" else "daughter"))
               (fun p => is_not_null (Father_Id p))); [assumption|].
      now rewrite H.
    + apply labelled_is_male.
  - apply in_or_app. right. apply in_or_app. left.
    replace (Some m) with (Mother_Id p) by assumption.
    apply (in_select People (fun p => row (Some (Person_Id p)) (Mother_Id p) "mother")
             (fun p => is_not_null (Mother_Id p))); [assumption|].
    now rewrite H.
  - exists (if is_male p then "son" else "daughter"). split.
    + do 4 (apply in_or_app; right). apply in_or_app. left.
      replace (Some m) with (Mother_Id p) by assumption.
      apply (in_select People
               (fun p => row (Mother_Id p) (Some (Person_Id p))
                             (if is_male p then "son" else "daughter"))
               (fun p => is_not_null (Mother_Id p))); [assumption|].
      now rewrite H.
    + apply labelled_is_male.
  - intros sp Hsp. exists (if is_male p then "wife" else "husband"). split.
    + do 5 (apply in_or_app; right).
      replace (Some sp) with (Spouse_Id p) by assumption.
      apply (in_select People
               (fun p => row (Some (Person_Id p)) (Spouse_Id p)
                             (if is_male p then "wife" else "husband"))
               (fun p => is_not_null (Spouse_Id p))); [assumption|].
      now rewrite Hsp.
    + apply labelled_is_male.
Qed.

(** C6, as stated, fails: the only person of [same_parent_People] has
    Father_Id 2, the INSERT selects (1, 2) twice (as father and as mother),
    the primary key rejects the statement, and Family_Tree has no row
    (1, 2, 'father'). *)
Lemma Ex1_same_parent_rejected :
  Ex1 [] same_parent_People = None
  /\ ~ immediate_family same_parent_People (Family_Tree_after [] same_parent_People).
Proof.
  split; [reflexivity|]. intros H.
  destruct (H _ (or_introl eq_refl)) as (Hf & _).
  destruct (Hf 2%Z eq_refl) as (Hin & _). exact Hin.
Qed.

(** C6 (amended): when the rows selected by the Ex1 INSERT, together with
    the rows already in Family_Tree, satisfy the primary key
    (Person_Id, Relative_Id), the INSERT succeeds and afterwards Family_Tree
    holds, for every person with a Father_Id, the rows
    (Person_Id, Father_Id, 'father') and (Father_Id, Person_Id, son or
    daughter by the child's gender), the same for Mother_Id with 'mother',
    and for every person with a Spouse_Id the row (Person_Id, Spouse_Id,
    'wife' if the person's gender is 'M', else 'husband'); when they violate
    the key, the INSERT fails and adds no row. *)
Theorem Ex1_immediate_family (Family_Tree : list relation) (People : list person) :
  (primary_key_ok (Family_Tree ++ Ex1_select People) = true ->
   Ex1 Family_Tree People = Some (Family_Tree ++ Ex1_select People)
   /\ Family_Tree_after Family_Tree People = Family_Tree ++ Ex1_select People
   /\ immediate_family People (Family_Tree_after Family_Tree People))
  /\ (primary_key_ok (Family_Tree ++ Ex1_select People) = false ->
      Ex1 Family_Tree People = None
      /\ Family_Tree_after Family_Tree People = Family_Tree).
Proof.
  unfold Family_Tree_after, Ex1. split; intros Hpk.
  - rewrite (insert_into_ok _ _ Hpk). split; [reflexivity|]. split; [reflexivity|].
    intros p Hin.
    destruct (immediate_family_select People p Hin) as (Hf & Hm & Hs).
    split; [|split].
    + intros f Hfather. destruct (Hf f Hfather) as (Hrow & t & Ht & Hl).
      split; [apply in_or_app; now right|].
      exists t. split; [apply in_or_app; now right | assumption].
    + intros m Hmother. destruct (Hm m Hmother) as (Hrow & t & Ht & Hl).
      split; [apply in_or_app; now right|].
      exists t. split; [apply in_or_app; now right | assumption].
    + intros sp Hsp. destruct (Hs sp Hsp) as (t & Ht & Hl).
      exists t. split; [apply in_or_app; now right | assumption].
  - rewrite (insert_into_fails _ _ Hpk). now split.
Qed.

Lemma Ex1_immediate_family_sample :
  primary_key_ok ([] ++ Ex1_select sample_People) = true
  /\ Ex1 [] sample_People = Some ([] ++ Ex1_select sample_People)
  /\ Family_Tree_after [] sample_People = [] ++ Ex1_select sample_People
  /\ immediate_family sample_People (Family_Tree_after [] sample_People).
Proof.
  split; [reflexivity|].
  apply (proj1 (Ex1_immediate_family [] sample_People)). reflexivity.
Defined.

(** ** The sibling rows of Ex1 *)

Lemma labelled_unique (p : person) (male other t : string) :
  labelled p male other t -> t = if is_male p then male else other.
Proof.
  intros [Hm Ho]. destruct (is_male p) eqn:E.
  - apply Hm, is_male_iff, E.
  - apply Ho. intros Hg. apply is_male_iff in Hg. congruence.
Qed.

Lemma other_selects_labels (People : list person) (r : relation) :
  In r (select_fathers People ++ select_mothers People) \/
  In r (select_children_of_father People ++ select_children_of_mother People
          ++ select_spouses People) ->
  Connection_Type r <> "brother" /\ Connection_Type r <> "sister".
Proof.
  unfold select_fathers, select_mothers, select_children_of_father,
    select_children_of_mother, select_spouses.
  intros [H|H]; repeat (apply in_app_or in H; destruct H as [H|H]);
    apply in_map_iff in H; destruct H as (p & <- & _); simpl;
    try destruct (is_male p); split; discriminate.
Qed.

Lemma children_rows (People : list person) (r : relation) :
  In r (select_children_of_father People ++ select_children_of_mother People) ->
  exists p, In p People /\ Relative_Id r = Some (Person_Id p)
            /\ labelled p "son" "daughter" (Connection_Type r).
Proof.
  unfold select_children_of_father, select_children_of_mother.
  intros H. apply in_app_or in H.
  destruct H as [H|H]; apply in_map_iff in H; destruct H as (p & <- & Hp);
    apply filter_In in Hp; destruct Hp as [Hp _]; exists p; simpl;
    (split; [assumption | split; [reflexivity | apply labelled_is_male]]).
Qed.

(** C9: a row (p, r, t) comes from the sibling SELECT of Ex1 exactly when p
    and r are two different people, p has both Father_Id and Mother_Id
    filled, p and r share a father id or a mother id, and t is 'brother'
    when the gender of p (not of r) is 'M' and 'sister' otherwise; these are
    the only 'brother' / 'sister' rows of the INSERT, which stores them when
    it succeeds.  The son / daughter rows take their label from the gender
    of the relative (the child). *)
Theorem sibling_rows (People : list person) :
  (forall r, In r (select_siblings People) <->
     exists p1 p2, In p1 People /\ In p2 People
       /\ ft_Person_Id r = Some (Person_Id p1)
       /\ Relative_Id r = Some (Person_Id p2)
       /\ Father_Id p1 <> None /\ Mother_Id p1 <> None
       /\ Person_Id p1 <> Person_Id p2
       /\ shares_parent p1 p2
       /\ labelled p1 "brother" "sister" (Connection_Type r))
  /\ (forall r, In r (Ex1_select People) ->
       (Connection_Type r = "brother" \/ Connection_Type r = "sister" <->
        In r (select_siblings People)))
  /\ (forall Family_Tree table, Ex1 Family_Tree People = Some table ->
       incl (select_siblings People) table)
  /\ (forall r, In r (select_children_of_father People
                       ++ select_children_of_mother People) ->
       exists p, In p People /\ Relative_Id r = Some (Person_Id p)
                 /\ labelled p "son" "daughter" (Connection_Type r)).
Proof.
  repeat split.
  - intros H. apply in_select_siblings in H.
    destruct H as (p1 & p2 & H1 & H2 & Hon & Hf & Hm & ->).
    apply sibling_on_iff in Hon. destruct Hon as [Hsh Hne].
    exists p1, p2. simpl.
    repeat (split; [first [assumption | reflexivity | now apply is_not_null_iff]|]).
    apply labelled_is_male.
  - intros (p1 & p2 & H1 & H2 & Hp & Hr & Hf & Hm & Hne & Hsh & Hl).
    apply in_select_siblings. exists p1, p2.
    repeat (split; [first [assumption | now apply is_not_null_iff
                          | now apply sibling_on_iff]|]).
    apply labelled_unique in Hl. destruct r as [a b t]; simpl in *. now subst.
  - intros Hl. unfold Ex1_select in H.
    apply in_app_or in H. destruct H as [H|H].
    { exfalso. destruct (other_selects_labels People r) as [Hb Hs].
      - left. apply in_or_app. now left.
      - destruct Hl; contradiction. }
    apply in_app_or in H. destruct H as [H|H].
    { exfalso. destruct (other_selects_labels People r) as [Hb Hs].
      - left. apply in_or_app. now right.
      - destruct Hl; contradiction. }
    apply in_app_or in H. destruct H as [H|H]; [assumption|].
    exfalso. destruct (other_selects_labels People r) as [Hb Hs].
    + now right.
    + destruct Hl; contradiction.
  - intros Hs. apply in_select_siblings in Hs.
    destruct Hs as (p1 & p2 & _ & _ & _ & _ & _ & ->). simpl.
    destruct (is_male p1); [now left | now right].
  - intros Family_Tree table HEx r Hr. unfold Ex1, insert_into in HEx.
    destruct (primary_key_ok _); [|discriminate]. injection HEx as <-.
    apply in_or_app. right. unfold Ex1_select.
    apply in_or_app. right. apply in_or_app. right. apply in_or_app. now left.
  - apply children_rows.
Qed.

(** ** Ex2 *)

Lemma in_listed_by (People : list person) (id x : Z) :
  In x (listed_by People id) <->
  exists q, In q People /\ Spouse_Id q = Some id /\ Person_Id q = x.
Proof.
  unfold listed_by. rewrite in_map_iff. split.
  - intros (q & Hx & Hq). apply filter_In in Hq. destruct Hq as [Hq Hs].
    exists q. repeat split; try assumption.
    unfold holds, eq3 in Hs. destruct (Spouse_Id q) as [sp|]; [|discriminate].
    destruct (Z.eqb_spec sp id); [now subst | discriminate].
  - intros (q & Hq & Hs & Hx). exists q. split; [assumption|].
    apply filter_In. split; [assumption|].
    rewrite Hs. simpl. now rewrite Z.eqb_refl.
Qed.

Lemma set_Spouse_Id_same (p : person) : set_Spouse_Id (Spouse_Id p) p = p.
Proof. now destruct p. Qed.

(** What the UPDATE does with one row whose subquery has at most one row. *)
Lemma update_row_listed_once (People : list person) (p : person) :
  length (listed_by People (Person_Id p)) <= 1 ->
  exists p', update_row People p = Some p'
    /\ completed People p p'
    /\ Person_Id p' = Person_Id p
    /\ (Spouse_Id p' = None ->
        Spouse_Id p = None /\ listed_by People (Person_Id p) = [])
    /\ (forall x, Spouse_Id p' = Some x ->
        Spouse_Id p = Some x
        \/ (Spouse_Id p = None /\ In x (listed_by People (Person_Id p)))).
Proof.
  intros Hlen. unfold update_row, missing_link.
  destruct (Spouse_Id p) as [sp|] eqn:Hsp; simpl.
  - exists p. rewrite Hsp. repeat split; try congruence.
    + now rewrite Hsp, <- Hsp, set_Spouse_Id_same.
    + intros x [= <-]. now left.
  - destruct (listed_by People (Person_Id p)) as [|x [|y l]] eqn:Hl; simpl in *.
    + exists p. rewrite Hsp. repeat split; try congruence.
      * now rewrite Hsp, <- Hsp, set_Spouse_Id_same.
      * intros _ q Hq Hs. exfalso.
        assert (Hin : In (Person_Id q) (listed_by People (Person_Id p)))
          by (apply in_listed_by; now exists q).
        now rewrite Hl in Hin.
    + exists (set_Spouse_Id (Some x) p). simpl. repeat split; try congruence.
      * intros _ q Hq Hs.
        assert (Hin : In (Person_Id q) (listed_by People (Person_Id p)))
          by (apply in_listed_by; now exists q).
        rewrite Hl in Hin. destruct Hin as [Hin|[]]. simpl. congruence.
      * intros [Hne|Hno]; [congruence|]. exfalso.
        assert (Hin : In x (listed_by People (Person_Id p)))
          by (rewrite Hl; now left).
        apply in_listed_by in Hin. destruct Hin as (q & Hq & Hs & _).
        exact (Hno q Hq Hs).
      * intros y [= <-]. right. split; [reflexivity | now left].
    + lia.
Qed.

Lemma update_rows_listed_once (People rows : list person) :
  (forall p, In p rows -> length (listed_by People (Person_Id p)) <= 1) ->
  exists rows', update_rows People rows = Some rows'
    /\ Forall2 (updated People) rows rows'.
Proof.
  induction rows as [|p rest IH]; intros Hlen; simpl.
  - exists []. split; [reflexivity | constructor].
  - destruct (update_row_listed_once People p) as (p' & Hp).
    { apply Hlen. now left. }
    destruct IH as (rest' & Hrest & Hall).
    { intros q Hq. apply Hlen. now right. }
    exists (p' :: rest'). destruct Hp as (Hp & Hmore). rewrite Hp, Hrest.
    split; [reflexivity|]. constructor; [|assumption]. now split.
Qed.

Lemma Forall2_In_r {A B} (R : A -> B -> Prop) (l : list A) (l' : list B) (b : B) :
  Forall2 R l l' -> In b l' -> exists a, In a l /\ R a b.
Proof.
  induction 1 as [|x y l l' Hxy _ IH]; intros Hin; [contradiction|].
  destruct Hin as [<-|Hin].
  - exists x. split; [now left | assumption].
  - destruct (IH Hin) as (a & Ha & HR). exists a. split; [now right | assumption].
Qed.

Lemma NoDup_map_inj {A B} (f : A -> B) (l : list A) (a b : A) :
  NoDup (map f l) -> In a l -> In b l -> f a = f b -> a = b.
Proof.
  induction l as [|x l IH]; simpl; intros Hnd Ha Hb Hf; [contradiction|].
  inversion Hnd as [|? ? Hnotin Hnd']; subst.
  destruct Ha as [->|Ha], Hb as [->|Hb]; try reflexivity.
  - exfalso. apply Hnotin. rewrite Hf. now apply in_map.
  - exfalso. apply Hnotin. rewrite <- Hf. now apply in_map.
  - now apply IH.
Qed.

(** C10: on a People table whose Person_Id is a key and in which each
    person is listed as spouse by at most one row, the Ex2 UPDATE succeeds;
    a person whose Spouse_Id was NULL and whom some q lists as spouse gets
    q's Person_Id as Spouse_Id, every other row is unchanged, and afterwards
    nobody with a NULL Spouse_Id is listed as spouse by somebody. *)
Theorem Ex2_completes_links (People : list person) :
  NoDup (map Person_Id People) ->
  listed_once People ->
  exists People',
    Ex2 People = Some People'
    /\ Forall2 (completed People) People People'
    /\ no_missing_link People'.
Proof.
  intros Hkey Honce.
  destruct (update_rows_listed_once People People Honce) as (People' & HEx & Hall).
  exists People'. split; [exact HEx|]. split.
  - eapply Forall2_impl; [|exact Hall]. intros p p' Hu. apply Hu.
  - intros p' q' Hp' Hq' Hnull Hlink.
    destruct (Forall2_In_r p' Hall Hp') as (p & Hp & _ & _ & Hidp & Hpnull & _).
    destruct (Forall2_In_r q' Hall Hq') as (q & Hq & _ & _ & _ & _ & Hqsome).
    destruct (Hpnull Hnull) as [Hsp Hnone].
    assert (Hnobody : forall r, In r People -> Spouse_Id r <> Some (Person_Id p)).
    { intros r Hr Hs.
      assert (Hin : In (Person_Id r) (listed_by People (Person_Id p)))
        by (apply in_listed_by; now exists r).
      now rewrite Hnone in Hin. }
    rewrite Hidp in Hlink.
    destruct (Hqsome _ Hlink) as [Hold|[_ Hnew]].
    + exact (Hnobody q Hq Hold).
    + apply in_listed_by in Hnew. destruct Hnew as (r & Hr & Hrs & Hrid).
      assert (r = p) by (eapply NoDup_map_inj; eassumption).
      subst r. congruence.
Qed.

Lemma Ex2_completes_links_sample :
  NoDup (map Person_Id sample_People)
  /\ listed_once sample_People
  /\ exists People',
       Ex2 sample_People = Some People'
       /\ Forall2 (completed sample_People) sample_People People'
       /\ no_missing_link People'.
Proof.
  assert (Hkey : NoDup (map Person_Id sample_People)).
  { simpl. repeat constructor; simpl; intuition discriminate. }
  assert (Honce : listed_once sample_People).
  { intros p Hp. simpl in Hp.
    repeat (destruct Hp as [<-|Hp]; [vm_compute; lia|]). contradiction. }
  split; [exact Hkey|]. split; [exact Honce|].
  exact (Ex2_completes_links Hkey Honce).
Defined.

End SqlFacts.

(* ===================================================================== *)
(** * Properties of tasks *)
(* ===================================================================== *)

Module AsyncFacts.
Import Js Api Async.

(** Case analysis along the branches of a task, for [keeps], [silent] and
    [linear]. *)
Ltac branches :=
  repeat (simpl; intros;
          match goal with
          | |- True => exact I
          | |- _ /\ _ => split
          | |- _ = _ => reflexivity
          | |- _ \/ _ => left
          | |- context [match ?x with _ => _ end] => destruct x
          end).

Section Facts.

Variable St : Type.
Variable user : string -> bool.

Lemma forEach_keeps {A B} (proj : St -> B) (l : list A)
    (body : A -> task St -> task St) (k : task St) :
  (forall x k', keeps proj k' -> keeps proj (body x k')) ->
  keeps proj k -> keeps proj (forEach l body k).
Proof. intros Hbody Hk. induction l; simpl; auto. Qed.

Lemma forEach_silent {A} (l : list A)
    (body : A -> task St -> task St) (k : task St) :
  (forall x k', silent k' -> silent (body x k')) ->
  silent k -> silent (forEach l body k).
Proof. intros Hbody Hk. induction l; simpl; auto. Qed.

Lemma Forall_remove_nth {A} (P : A -> Prop) (i : nat) (l : list A) :
  Forall P l -> Forall P (remove_nth i l).
Proof.
  intros H. revert i. induction H as [|x l Hx Hl IH]; intros [|i]; simpl;
    try constructor; auto.
Qed.

Lemma sync_keeps {A} (proj : St -> A) (t : task St) :
  keeps proj t ->
  forall s, proj (page_after (sync user t s)) = proj s
            /\ Forall (fun rk => forall o, keeps proj (snd rk o))
                      (parked (sync user t s)).
Proof.
  induction t as [| |m k IH|m k IH|m k IH|m k IH|r k IH|k IH|f k IH|c IHc k IHk];
    simpl; intros Ht s; auto.
  - destruct Ht as [Hf Hk]. destruct (IH Hk (f s)) as [Hp Hq].
    split; [rewrite Hp; apply Hf | assumption].
  - destruct Ht as [Hc Hk]. destruct (IHc Hc s) as [Hp1 Hq1].
    destruct (IHk Hk (page_after (sync user c s))) as [Hp2 Hq2].
    split; [now rewrite Hp2 | now apply Forall_app].
Qed.

(** A task that keeps [proj] keeps it however its requests are answered. *)
Lemma reach_keeps {A} (proj : St -> A) (c c' : config St) :
  reach user c c' ->
  Forall (fun rk => forall o, keeps proj (snd rk o)) (inflight c) ->
  proj (page c') = proj (page c).
Proof.
  induction 1 as [c|c i o c1 c2 Hd _ IH]; intros Hall; [reflexivity|].
  unfold deliver in Hd.
  destruct (nth_error (inflight c) i) as [[r k]|] eqn:Hnth; [|discriminate].
  injection Hd as <-. simpl in IH.
  assert (Hk : keeps proj (k o)).
  { apply nth_error_In in Hnth. rewrite Forall_forall in Hall.
    exact (Hall _ Hnth o). }
  destruct (sync_keeps proj (k o) Hk (page c)) as [Hp Hq].
  rewrite IH; [exact Hp|].
  apply Forall_app. split; [now apply Forall_remove_nth | assumption].
Qed.

Lemma keeps_dispatch {A} (proj : St -> A) (t : task St) (s : St) (c : config St) :
  keeps proj t -> reach user (dispatch user t s) c -> proj (page c) = proj s.
Proof.
  intros Ht Hr. destruct (sync_keeps proj t Ht s) as [Hp Hq].
  rewrite (reach_keeps proj Hr Hq). exact Hp.
Qed.

Lemma silent_parked (t : task St) (s : St) :
  silent t -> parked (sync user t s) = [].
Proof.
  revert s.
  induction t as [| |m k IH|m k IH|m k IH|m k IH|r k IH|k IH|f k IH|c IHc k IHk];
    simpl; intros s Ht; auto.
  - contradiction.
  - destruct Ht as [Hc Hk]. now rewrite IHc, IHk.
Qed.

Lemma linear_parked (t : task St) (s : St) :
  linear t ->
  parked (sync user t s) = []
  \/ exists r k, parked (sync user t s) = [(r, k)] /\ forall o, linear (k o).
Proof.
  revert s.
  induction t as [| |m k IH|m k IH|m k IH|m k IH|r k IH|k IH|f k IH|c IHc k IHk];
    simpl; intros s Ht; auto.
  - right. exists r, k. now split.
  - destruct Ht as [[Hc Hk]|[Hc Hk]].
    + rewrite (silent_parked k _ Hk), app_nil_r. now apply IHc.
    + rewrite (silent_parked c _ Hc). simpl. now apply IHk.
Qed.

Lemma reach_linear (c c' : config St) :
  reach user c c' ->
  (inflight c = []
   \/ exists r k, inflight c = [(r, k)] /\ forall o, linear (k o)) ->
  length (inflight c') <= 1.
Proof.
  induction 1 as [c|c i o c1 c2 Hd _ IH]; intros Hone.
  - destruct Hone as [->|(r & k & -> & _)]; simpl; lia.
  - apply IH. unfold deliver in Hd.
    destruct Hone as [Hnil|(r & k & Hin & Hk)]; rewrite ?Hnil, ?Hin in Hd.
    + now destruct i.
    + destruct i as [|[|i]]; simpl in Hd; try discriminate.
      injection Hd as <-. simpl. apply linear_parked, Hk.
Qed.

(** A linear task has at most one request in flight at any time. *)
Lemma linear_one_at_a_time (t : task St) :
  linear t -> one_at_a_time user t.
Proof.
  intros Ht s c Hr. apply (reach_linear Hr). unfold dispatch. simpl.
  now apply linear_parked.
Qed.

End Facts.

End AsyncFacts.

(* ===================================================================== *)
(** * Properties of rendered markup *)
(* ===================================================================== *)

Module HtmlFacts.
Import Js.



End HtmlFacts.

(* ===================================================================== *)
(** * Properties of the owner page *)
(* ===================================================================== *)

Module OwnerFacts.
Import Js Api Async AsyncFacts HtmlFacts Owner.

(** ** The order form *)

Lemma truthy_iff (s : string) : truthy s = true <-> s <> "".
Proof. destruct s; simpl; split; congruence. Qed.

Lemma quantityInput_found (div : list child) (checkbox : product_row) :
  In checkbox (product_rows div) ->
  quantityInput div (checkbox_value checkbox) <> None.
Proof.
  intros Hin Hnone. unfold quantityInput in Hnone.
  apply (find_none _ _ Hnone) in Hin. unfold quantity_name, checkbox_value in Hin.
  now rewrite String.eqb_refl in Hin.
Qed.

Lemma checkedProducts_found (div : list child) (checkbox : product_row) :
  In checkbox (checkedProducts div) ->
  quantityInput div (checkbox_value checkbox) <> None.
Proof.
  intros Hin. apply quantityInput_found.
  unfold checkedProducts in Hin. now apply filter_In in Hin.
Qed.

(** The loop over the checked products, run in one go. *)
Lemma collect_items_sync (user : string -> bool) (div : list child)
    (boxes : list product_row) (items : list item)
    (k : list item -> task page) (s : page) :
  (forall checkbox, In checkbox boxes ->
     quantityInput div (checkbox_value checkbox) <> None) ->
  sync user (collect_items div boxes items k) s =
  {| page_after := page_after (sync user (k (items ++ accepted div boxes)) s);
     events := invalid_warnings div boxes
               ++ events (sync user (k (items ++ accepted div boxes)) s);
     parked := parked (sync user (k (items ++ accepted div boxes)) s) |}.
Proof.
  revert items. induction boxes as [|checkbox rest IH]; intros items Hfound; simpl.
  - rewrite app_nil_r. now destruct (sync user (k items) s).
  - unfold parsed_quantity.
    destruct (quantityInput div (checkbox_value checkbox)) as [input|] eqn:Hq.
    + destruct (gt (parseInt (quantity_value input)) (of_Z 0)); simpl.
      * rewrite IH by (intros c Hc; apply Hfound; now right).
        now rewrite <- app_assoc.
      * rewrite IH by (intros c Hc; apply Hfound; now right). reflexivity.
    + exfalso. apply (Hfound checkbox); [now left | assumption].
Qed.

Lemma accepted_nonempty (div : list child) (boxes : list product_row) :
  accepted div boxes <> [] <->
  exists checkbox, In checkbox boxes
                   /\ gt (parsed_quantity div checkbox) (of_Z 0) = true.
Proof.
  induction boxes as [|c rest IH]; simpl.
  - split; [congruence | intros (x & [] & _)].
  - destruct (gt (parsed_quantity div c) (of_Z 0)) eqn:Hc; simpl.
    + split; [|discriminate]. intros _. exists c. split; [now left | assumption].
    + rewrite IH. split.
      * intros (x & Hx & Hg). exists x. split; [now right | assumption].
      * intros (x & [<-|Hx] & Hg); [congruence|]. now exists x.
Qed.


Lemma invalid_warnings_quiet (div : list child) (boxes : list product_row)
    (rest : list event) :
  requests (invalid_warnings div boxes ++ rest) = requests rest
  /\ alerts (invalid_warnings div boxes ++ rest) = alerts rest.
Proof.
  induction boxes as [|c more IH]; simpl; [now split|].
  destruct (gt (parsed_quantity div c) (of_Z 0)); simpl; assumption.
Qed.

Lemma length_zero_iff {A} (l : list A) : (length l =? 0) = true <-> l = [].
Proof. destruct l; simpl; split; congruence. Qed.

(** One run of [submitNewOrder]: either a validation alert and nothing
    else, or the POST of the accepted items. *)
Lemma submitNewOrder_run (user : string -> bool) (s : page) :
  let run := sync user submitNewOrder s in
  let div := productsForOrderDiv s in
  (~ orderable s
   /\ requests (events run) = []
   /\ (exists msg, In msg validation_alerts /\ alerts (events run) = [msg])
   /\ parked run = []
   /\ page_after run = s)
  \/ (orderable s
      /\ accepted div (checkedProducts div) <> []
      /\ requests (events run)
         = [post_order (supplierSelect_value s) (accepted div (checkedProducts div))]).
Proof.
  intros run div. subst run div. unfold submitNewOrder, orderable. cbn [sync].
  destruct (truthy (supplierSelect_value s)) eqn:Hname; cbn [negb sync events].
  2: { assert (Hempty : supplierSelect_value s = "")
         by (destruct (supplierSelect_value s); [reflexivity | discriminate]).
       left. simpl. split; [intros [Hne _]; congruence|].
       split; [reflexivity|]. split; [|now split].
       eexists. split; [now left | reflexivity]. }
  apply truthy_iff in Hname.
  destruct (length (checkedProducts (productsForOrderDiv s)) =? 0) eqn:Hlen;
    cbn [sync events].
  { apply length_zero_iff in Hlen. rewrite Hlen. left. simpl.
    split; [intros (_ & c & [] & _)|].
    split; [reflexivity|]. split; [|now split].
    eexists. split; [right; now left | reflexivity]. }
  rewrite collect_items_sync by (intros c Hc; now apply checkedProducts_found).
  cbn [app events parked page_after].
  set (div := productsForOrderDiv s) in *.
  set (boxes := checkedProducts div) in *.
  pose proof (accepted_nonempty div boxes) as Hacc.
  destruct (length (accepted div boxes) =? 0) eqn:Hno;
    cbn [sync events parked page_after];
    rewrite (proj1 (invalid_warnings_quiet div boxes _)),
            ?(proj2 (invalid_warnings_quiet div boxes _)); simpl.
  - apply length_zero_iff in Hno. left.
    split; [intros [_ Hex]; apply Hacc in Hex; congruence|].
    split; [reflexivity|]. split; [|now split].
    eexists. split; [right; right; now left | reflexivity].
  - assert (Hsome : accepted div boxes <> []).
    { intros E. rewrite E in Hno. discriminate. }
    right. split; [|now split]. split; [assumption | now apply Hacc].
Qed.



(** ** What the handlers leave alone, and how they fetch *)

Lemma loadAllOrders_keeps : keeps suppliersData loadAllOrders.
Proof. unfold loadAllOrders, loadAllOrders_settled, add_status_styles. branches. Qed.

Lemma loadAllOrders_linear : linear loadAllOrders.
Proof. unfold loadAllOrders, loadAllOrders_settled, add_status_styles. branches. Qed.

Lemma collect_items_keeps (div : list child) (boxes : list product_row)
    (items : list item) (k : list item -> task page) :
  (forall l, keeps suppliersData (k l)) ->
  keeps suppliersData (collect_items div boxes items k).
Proof.
  intros Hk. revert items.
  induction boxes as [|c rest IH]; intros items; simpl; [apply Hk|].
  destruct (quantityInput div (checkbox_value c)); [|exact I].
  destruct (gt _ _); simpl; apply IH.
Qed.

Lemma collect_items_linear (div : list child) (boxes : list product_row)
    (items : list item) (k : list item -> task page) :
  (forall l, linear (k l)) -> linear (collect_items div boxes items k).
Proof.
  intros Hk. revert items.
  induction boxes as [|c rest IH]; intros items; simpl; [apply Hk|].
  destruct (quantityInput div (checkbox_value c)); [|exact I].
  destruct (gt _ _); simpl; apply IH.
Qed.

Lemma submitNewOrder_keeps : keeps suppliersData submitNewOrder.
Proof.
  unfold submitNewOrder. simpl. intros s.
  destruct (truthy _); simpl; [|exact I].
  destruct (_ =? 0); simpl; [exact I|].
  apply collect_items_keeps. intros l.
  unfold submitNewOrder_settled, loadAllOrders, loadAllOrders_settled,
    add_status_styles. branches.
Qed.

Lemma submitNewOrder_linear : linear submitNewOrder.
Proof.
  unfold submitNewOrder. simpl. intros s.
  destruct (truthy _); simpl; [|exact I].
  destruct (_ =? 0); simpl; [exact I|].
  apply collect_items_linear. intros l.
  unfold submitNewOrder_settled, loadAllOrders, loadAllOrders_settled,
    add_status_styles. branches.
Qed.

Lemma markOrderComplete_keeps (id : string) :
  keeps suppliersData (markOrderComplete id).
Proof.
  unfold markOrderComplete, markOrderComplete_settled, loadAllOrders,
    loadAllOrders_settled, add_status_styles. branches.
Qed.

Lemma markOrderComplete_linear (id : string) : linear (markOrderComplete id).
Proof.
  unfold markOrderComplete, markOrderComplete_settled, loadAllOrders,
    loadAllOrders_settled, add_status_styles. branches.
Qed.

Lemma displayProductsForOrder_keeps : keeps suppliersData displayProductsForOrder.
Proof. unfold displayProductsForOrder. branches. Qed.

Lemma displayProductsForOrder_silent : silent displayProductsForOrder.
Proof. unfold displayProductsForOrder. branches. Qed.

Lemma owner_handler_keeps (l : listener) :
  l <> DOMContentLoaded -> keeps suppliersData (handler l).
Proof.
  destruct l; simpl; intros Hl.
  - now elim Hl.
  - apply displayProductsForOrder_keeps.
  - now split.
  - apply submitNewOrder_keeps.
  - apply loadAllOrders_keeps.
  - apply markOrderComplete_keeps.
Qed.

Lemma owner_handler_linear (l : listener) :
  l <> DOMContentLoaded -> linear (handler l).
Proof.
  destruct l; intros Hl.
  - now elim Hl.
  - unfold handler, displayProductsForOrder. branches.
  - exact I.
  - apply submitNewOrder_linear.
  - apply loadAllOrders_linear.
  - apply markOrderComplete_linear.
Qed.

(** ** Failed requests *)

Lemma fetchSuppliers_failure (user : string -> bool) (s : page) (o : outcome) :
  failed o = true ->
  events (sync user (fetchSuppliers_settled o) s)
    = [LoggedError "Error fetching suppliers:"]
  /\ supplierSelect_options (page_after (sync user (fetchSuppliers_settled o) s))
     = [{| option_value := ""; option_text := "Error loading suppliers";
           supplierInfo := None |}]
  /\ suppliersData (page_after (sync user (fetchSuppliers_settled o) s))
     = suppliersData s.
Proof.
  destruct o as [m|response]; simpl; [now repeat split|].
  destruct (ok response); simpl; [|now repeat split].
  destruct (response_json response); [now repeat split | discriminate].
Qed.

Lemma add_supplier_option_keeps (x : supplier) (k : task page) :
  keeps suppliersData k -> keeps suppliersData (add_supplier_option x k).
Proof. intros Hk. unfold add_supplier_option. branches; assumption. Qed.

Lemma fetchSuppliers_success (user : string -> bool) (s : page)
    (response : response) (data : data) :
  ok response = true -> response_json response = Json data ->
  suppliersData (page_after (sync user (fetchSuppliers_settled (Resolved response)) s))
    = or_nil (suppliers data).
Proof.
  intros Hok Hjson. unfold fetchSuppliers_settled. rewrite Hok, Hjson. simpl.
  match goal with
  | |- suppliersData (page_after (sync user ?t ?s')) = _ =>
      destruct (sync_keeps user suppliersData t) with (s := s') as [Hp _]
  end.
  - apply forEach_keeps; [apply add_supplier_option_keeps | exact I].
  - now rewrite Hp.
Qed.

Lemma loadAllOrders_failure (user : string -> bool) (s : page) (o : outcome) :
  failed o = true ->
  events (sync user (loadAllOrders_settled o) s)
    = [LoggedError "Error loading orders:"]
  /\ allOrdersListDiv (page_after (sync user (loadAllOrders_settled o) s))
     = [p_red "Error loading orders."].
Proof.
  destruct o as [m|response]; simpl; [now repeat split|].
  destruct (ok response); simpl; [|now repeat split].
  destruct (response_json response); [now repeat split | discriminate].
Qed.

Lemma submitNewOrder_failure (user : string -> bool) (s : page) (o : outcome) :
  failed o = true ->
  exists msg,
    alerts (events (sync user (submitNewOrder_settled o) s)) = [msg]
    /\ errors_logged (events (sync user (submitNewOrder_settled o) s))
       = (if thrown o then ["Error submitting order:"] else [])
    /\ requests (events (sync user (submitNewOrder_settled o) s)) = [].
Proof.
  destruct o as [m|response]; simpl; [eexists; now repeat split|].
  destruct (response_json response); simpl; [eexists; now repeat split|].
  rewrite orb_false_r. intros Hok. apply negb_true_iff in Hok. rewrite Hok.
  simpl. eexists; now repeat split.
Qed.

Lemma markOrderComplete_failure (user : string -> bool) (s : page) (o : outcome) :
  failed o = true ->
  exists msg,
    alerts (events (sync user (markOrderComplete_settled o) s)) = [msg]
    /\ errors_logged (events (sync user (markOrderComplete_settled o) s))
       = (if thrown o then ["Error completing order:"] else [])
    /\ requests (events (sync user (markOrderComplete_settled o) s)) = [].
Proof.
  destruct o as [m|response]; simpl; [eexists; now repeat split|].
  destruct (response_json response); simpl; [eexists; now repeat split|].
  rewrite orb_false_r. intros Hok. apply negb_true_iff in Hok. rewrite Hok.
  simpl. eexists; now repeat split.
Qed.

(** The only request [submitNewOrder] parks resumes [submitNewOrder_settled]
    on the page it was sent from. *)
Lemma submitNewOrder_respond (user : string -> bool) (s : page) (o : outcome)
    (r : result page) :
  respond user submitNewOrder s o = Some r ->
  r = sync user (submitNewOrder_settled o) s.
Proof.
  unfold respond, submitNewOrder. cbn [sync].
  destruct (truthy (supplierSelect_value s)); cbn [negb sync parked];
    [|discriminate].
  destruct (length (checkedProducts (productsForOrderDiv s)) =? 0);
    cbn [sync parked]; [discriminate|].
  rewrite collect_items_sync by (intros c Hc; now apply checkedProducts_found).
  cbn [app parked page_after].
  destruct (length (accepted _ _) =? 0); cbn [sync parked page_after];
    [discriminate|].
  now intros [= <-].
Qed.

Lemma markOrderComplete_respond (user : string -> bool) (id : string) (s : page)
    (o : outcome) (r : result page) :
  respond user (markOrderComplete id) s o = Some r ->
  r = sync user (markOrderComplete_settled o) s.
Proof.
  unfold respond, markOrderComplete. cbn [sync].
  destruct (user _); cbn [negb sync parked page_after]; [|discriminate].
  now intros [= <-].
Qed.

(** ** The orders table *)



End OwnerFacts.

(* ===================================================================== *)
(** * Properties of the supplier page *)
(* ===================================================================== *)

Module SupplierFacts.
Import Js Api Async AsyncFacts HtmlFacts Supplier.

(** ** The registration form *)




(** The loop over the rows, run in one go. *)
Lemma collect_products_sync (user : string -> bool)
    (entries : list product_entry) (products : list product) (valid : bool)
    (k : list product -> bool -> task page) (s : page) :
  sync user (collect_products entries products valid k) s =
  {| page_after :=
       page_after (sync user (k (products ++ valid_products entries)
                                (valid && all_valid entries)) s);
     events :=
       entry_warnings entries
       ++ events (sync user (k (products ++ valid_products entries)
                               (valid && all_valid entries)) s);
     parked :=
       parked (sync user (k (products ++ valid_products entries)
                            (valid && all_valid entries)) s) |}.
Proof.
  revert products valid.
  induction entries as [|entry rest IH]; intros products valid; simpl.
  - rewrite app_nil_r, andb_true_r. now destruct (sync user (k products valid) s).
  - destruct (check_entry entry) as [pr| |]; simpl; rewrite IH.
    + now rewrite <- app_assoc.
    + now rewrite andb_false_r.
    + now rewrite andb_false_r.
Qed.

Lemma entry_warnings_quiet (entries : list product_entry) (rest : list event) :
  requests (entry_warnings entries ++ rest) = requests rest
  /\ alerts (entry_warnings entries ++ rest) = alerts rest.
Proof.
  induction entries as [|entry more IH]; simpl; [now split|].
  destruct (check_entry entry); simpl; assumption.
Qed.



(** ** How the handlers fetch *)

Lemma collect_products_linear (entries : list product_entry)
    (products : list product) (valid : bool)
    (k : list product -> bool -> task page) :
  (forall l b, linear (k l b)) -> linear (collect_products entries products valid k).
Proof.
  intros Hk. revert products valid.
  induction entries as [|entry rest IH]; intros products valid; simpl; [apply Hk|].
  destruct (check_entry entry); simpl; apply IH.
Qed.

Lemma loadOrders_linear (company : string) (k : task page) :
  linear k -> linear (loadOrders company k).
Proof.
  intros Hk. unfold loadOrders, loadOrders_settled, loadOrders_catch.
  branches; assumption.
Qed.

Lemma supplier_handler_linear (l : listener) : linear (handler l).
Proof.
  destruct l; unfold handler.
  - exact I.
  - exact I.
  - exact I.
  - unfold registerFormSubmitHandler. simpl. intros s.
    apply collect_products_linear. intros products valid.
    unfold register_settled. branches.
  - unfold loginFormSubmitHandler, login_settled, showOrdersView, loadOrders,
      loadOrders_settled, loadOrders_catch. branches.
  - unfold approveOrder, approveOrder_settled, loadOrders, loadOrders_settled,
      loadOrders_catch. branches.
Qed.

(** ** Failed requests *)

Lemma loadOrders_failure (user : string -> bool) (s : page) (o : outcome) :
  failed o = true ->
  exists msg,
    events (sync user (loadOrders_settled Done o) s)
      = [LoggedError "Error loading orders:"]
    /\ ordersList (page_after (sync user (loadOrders_settled Done o) s))
       = [p_red msg].
Proof.
  intros Hf. unfold loadOrders_settled, loadOrders_catch.
  destruct o as [m|response]; simpl in *; [eexists; now split|].
  destruct (ok response); simpl in *; [|eexists; now split].
  destruct (response_json response); [eexists; now split | discriminate].
Qed.

Lemma register_failure (user : string -> bool) (s : page) (o : outcome) :
  failed o = true ->
  exists msg,
    alerts (events (sync user (register_settled o) s)) = [msg]
    /\ errors_logged (events (sync user (register_settled o) s))
       = (if thrown o then ["Registration Error:"] else [])
    /\ requests (events (sync user (register_settled o) s)) = [].
Proof.
  destruct o as [m|response]; simpl; [eexists; now repeat split|].
  destruct (response_json response); simpl; [eexists; now repeat split|].
  rewrite orb_false_r. intros Hok. apply negb_true_iff in Hok. rewrite Hok.
  simpl. eexists; now repeat split.
Qed.

Lemma login_failure (user : string -> bool) (company : string) (s : page)
    (o : outcome) :
  failed o = true ->
  exists msg,
    alerts (events (sync user (login_settled company o) s)) = [msg]
    /\ errors_logged (events (sync user (login_settled company o) s))
       = (if thrown o then ["Login Error:"] else [])
    /\ requests (events (sync user (login_settled company o) s)) = [].
Proof.
  destruct o as [m|response]; simpl; [eexists; now repeat split|].
  destruct (response_json response); simpl; [eexists; now repeat split|].
  rewrite orb_false_r. intros Hok. apply negb_true_iff in Hok. rewrite Hok.
  simpl. eexists; now repeat split.
Qed.

Lemma approveOrder_failure (user : string -> bool) (s : page) (o : outcome) :
  failed o = true ->
  exists msg,
    alerts (events (sync user (approveOrder_settled o) s)) = [msg]
    /\ errors_logged (events (sync user (approveOrder_settled o) s))
       = (if thrown o then ["Error approving order:"] else [])
    /\ requests (events (sync user (approveOrder_settled o) s)) = [].
Proof.
  destruct o as [m|response]; simpl; [eexists; now repeat split|].
  destruct (response_json response); simpl; [eexists; now repeat split|].
  rewrite orb_false_r. intros Hok. apply negb_true_iff in Hok. rewrite Hok.
  simpl. eexists; now repeat split.
Qed.

Lemma register_respond (user : string -> bool) (s : page) (o : outcome)
    (r : result page) :
  respond user registerFormSubmitHandler s o = Some r ->
  r = sync user (register_settled o) s.
Proof.
  unfold respond, registerFormSubmitHandler. cbn [sync].
  rewrite collect_products_sync. cbn [app andb parked page_after].
  destruct (all_valid (productsListDiv s)); cbn [negb sync parked page_after];
    [|discriminate].
  destruct (length (valid_products _) =? 0); cbn [sync parked page_after];
    [discriminate|].
  now intros [= <-].
Qed.

Lemma login_respond (user : string -> bool) (s : page) (o : outcome)
    (r : result page) :
  respond user loginFormSubmitHandler s o = Some r ->
  r = sync user (login_settled (trim (loginCompanyName s)) o) s.
Proof.
  unfold respond, loginFormSubmitHandler. cbn [sync].
  destruct (_ || _); cbn [sync parked page_after]; [discriminate|].
  now intros [= <-].
Qed.

Lemma approveOrder_respond (user : string -> bool) (id : string) (s : page)
    (o : outcome) (r : result page) :
  respond user (approveOrder id) s o = Some r ->
  r = sync user (approveOrder_settled o) s.
Proof.
  unfold respond, approveOrder. cbn [sync].
  destruct (user _); cbn [negb sync parked page_after]; [|discriminate].
  now intros [= <-].
Qed.

(** ** The orders list *)



End SupplierFacts.

(* ===================================================================== *)
(** * The two pages against the specification *)
(* ===================================================================== *)

Module PageFacts.
Import Js Api Async AsyncFacts HtmlFacts Pages.

(** ** Buttons and order status *)


(** ** Failed requests *)

(** C2, as stated, fails: when the request of [fetchSuppliers] fails with a
    network error, the handler logs the error and writes "Error loading
    suppliers" into the select; no dialog opens. *)
Lemma fetchSuppliers_failure_not_surfaced :
  failed offline = true
  /\ exists r,
       respond accepts Owner.fetchSuppliers Owner.empty_page offline = Some r
       /\ alerts (events r) = []
       /\ ~ surfaced (events r).
Proof.
  split; [reflexivity|]. eexists. split; [reflexivity|].
  split; [reflexivity|]. intros [Halert _]. now apply Halert.
Qed.

Lemma loader_inline {St} (user : string -> bool) (t : task St) (o : outcome)
    (label : string) (shown : St -> Prop) :
  (forall s, exists r,
      respond user t s o = Some r
      /\ events r = [LoggedError label] /\ shown (page_after r)) ->
  logged_inline user t o label shown.
Proof.
  intros H s. destruct (H s) as (r & Hr & He & Hs). exists r.
  rewrite He. now repeat split.
Qed.

(** C2 (amended): a failed request (network error, unparsable body, or
    [ok = false]) of [fetchSuppliers], [loadAllOrders] or [loadOrders] is
    logged with [console.error] and shown inside the page, without a dialog;
    a failed request of a POST or PUT handler ([submitNewOrder],
    [markOrderComplete], registration, login, [approveOrder]) opens one
    alert, and is logged with [console.error] when it was a network error
    or an unparsable body; no handler sends the request again. *)
Theorem failed_requests_reported (user : string -> bool) (o : outcome) :
  failed o = true -> failure_reports user o.
Proof.
  intros Hf. unfold failure_reports. repeat split.
  - apply loader_inline. intros s. eexists. split; [reflexivity|].
    destruct (OwnerFacts.fetchSuppliers_failure user s o Hf) as (He & Hs & _).
    now split.
  - apply loader_inline. intros s. eexists. split; [reflexivity|].
    destruct (OwnerFacts.loadAllOrders_failure user
                (Owner.set_allOrdersListDiv [Owner.p "Loading orders..."] s) o Hf)
      as (He & Hs).
    now split.
  - intros company. apply loader_inline. intros s. eexists.
    split; [reflexivity|].
    destruct (SupplierFacts.loadOrders_failure user
                (Supplier.set_ordersList [Supplier.p "Loading orders..."] s) o Hf)
      as (msg & He & Hs).
    split; [exact He | now exists msg].
  - apply OwnerFacts.submitNewOrder_respond in H. subst r.
    destruct (OwnerFacts.submitNewOrder_failure user s o Hf) as (msg & Ha & _).
    now exists msg.
  - apply OwnerFacts.submitNewOrder_respond in H. subst r.
    now destruct (OwnerFacts.submitNewOrder_failure user s o Hf) as (msg & _ & He & _).
  - apply OwnerFacts.submitNewOrder_respond in H. subst r.
    now destruct (OwnerFacts.submitNewOrder_failure user s o Hf) as (msg & _ & _ & Hq).
  - apply OwnerFacts.markOrderComplete_respond in H. subst r.
    destruct (OwnerFacts.markOrderComplete_failure user s o Hf) as (msg & Ha & _).
    now exists msg.
  - apply OwnerFacts.markOrderComplete_respond in H. subst r.
    now destruct (OwnerFacts.markOrderComplete_failure user s o Hf) as (msg & _ & He & _).
  - apply OwnerFacts.markOrderComplete_respond in H. subst r.
    now destruct (OwnerFacts.markOrderComplete_failure user s o Hf) as (msg & _ & _ & Hq).
  - apply SupplierFacts.register_respond in H. subst r.
    destruct (SupplierFacts.register_failure user s o Hf) as (msg & Ha & _).
    now exists msg.
  - apply SupplierFacts.register_respond in H. subst r.
    now destruct (SupplierFacts.register_failure user s o Hf) as (msg & _ & He & _).
  - apply SupplierFacts.register_respond in H. subst r.
    now destruct (SupplierFacts.register_failure user s o Hf) as (msg & _ & _ & Hq).
  - apply SupplierFacts.login_respond in H. subst r.
    destruct (SupplierFacts.login_failure user
                (trim (Supplier.loginCompanyName s)) s o Hf) as (msg & Ha & _).
    now exists msg.
  - apply SupplierFacts.login_respond in H. subst r.
    now destruct (SupplierFacts.login_failure user
                    (trim (Supplier.loginCompanyName s)) s o Hf) as (msg & _ & He & _).
  - apply SupplierFacts.login_respond in H. subst r.
    now destruct (SupplierFacts.login_failure user
                    (trim (Supplier.loginCompanyName s)) s o Hf) as (msg & _ & _ & Hq).
  - apply SupplierFacts.approveOrder_respond in H. subst r.
    destruct (SupplierFacts.approveOrder_failure user s o Hf) as (msg & Ha & _).
    now exists msg.
  - apply SupplierFacts.approveOrder_respond in H. subst r.
    now destruct (SupplierFacts.approveOrder_failure user s o Hf) as (msg & _ & He & _).
  - apply SupplierFacts.approveOrder_respond in H. subst r.
    now destruct (SupplierFacts.approveOrder_failure user s o Hf) as (msg & _ & _ & Hq).
Qed.

Lemma failed_requests_reported_offline :
  failed offline = true
  /\ failure_reports accepts offline
  /\ (exists r, respond accepts Owner.submitNewOrder Owner.bolt_order offline = Some r
                 /\ events r = [ LoggedError "Error submitting order:";
                                 Alerted "An unexpected error occurred while submitting the order." ])
  /\ (exists r, respond accepts (Owner.markOrderComplete "ORD-1") Owner.empty_page offline
                 = Some r
                 /\ events r = [ LoggedError "Error completing order:";
                                 Alerted "An unexpected error occurred while marking the order as complete." ])
  /\ (exists r, respond accepts Supplier.registerFormSubmitHandler
                        Supplier.acme_registration offline = Some r
                 /\ events r = [ LoggedError "Registration Error:";
                                 Alerted "An unexpected error occurred during registration." ])
  /\ (exists r, respond accepts Supplier.loginFormSubmitHandler
                        Supplier.acme_registration offline = Some r
                 /\ events r = [ LoggedError "Login Error:";
                                 Alerted "An unexpected error occurred during login." ])
  /\ (exists r, respond accepts (Supplier.approveOrder "ORD-1") Supplier.empty_page offline
                 = Some r
                 /\ events r = [ LoggedError "Error approving order:";
                                 Alerted "An unexpected error occurred while approving the order." ]).
Proof.
  split; [reflexivity|]. split.
  - apply (failed_requests_reported accepts offline). reflexivity.
  - repeat split; eexists; (split; [reflexivity|reflexivity]).
Defined.

(** ** The order payload *)

(** C4: the payload [submitNewOrder] sends has exactly the fields
    supplier_name and items, each item exactly product_name, quantity and
    price_per_item; it has no status and no total_amount field; and the
    status and the total a page shows for an order are the ones of the
    response, whatever the items of the order. *)
Theorem orderPayload_shape (user : string -> bool) (s : Owner.page) :
  (forall req,
     In req (requests (events (sync user Owner.submitNewOrder s))) ->
     exists payload line_items,
       body req = Some payload
       /\ keys payload = ["supplier_name"; "items"]
       /\ field "supplier_name" payload = Some (JStr (Owner.supplierSelect_value s))
       /\ field "items" payload = Some (JArr line_items)
       /\ Forall (fun i => keys i = ["product_name"; "quantity"; "price_per_item"])
                 line_items
       /\ ~ In "status" (keys payload)
       /\ ~ In "total_amount" (keys payload)
       /\ Forall (fun i => ~ In "status" (keys i) /\ ~ In "total_amount" (keys i))
                 line_items)
  /\ (forall order, shows_backend_values order).
Proof.
  split.
  - intros req Hreq.
    destruct (OwnerFacts.submitNewOrder_run user s)
      as [(_ & Hnone & _)|(_ & _ & Hsent)].
    { rewrite Hnone in Hreq. contradiction. }
    rewrite Hsent in Hreq. destruct Hreq as [<-|[]].
    eexists. exists (map Owner.item_json
                       (Owner.accepted (Owner.productsForOrderDiv s)
                          (Owner.checkedProducts (Owner.productsForOrderDiv s)))).
    split; [reflexivity|]. do 3 (split; [reflexivity|]). split; [|split; [|split]].
    + apply Forall_forall. intros i Hi. apply in_map_iff in Hi.
      now destruct Hi as (x & <- & _).
    + simpl. intuition discriminate.
    + simpl. intuition discriminate.
    + apply Forall_forall. intros i Hi. apply in_map_iff in Hi.
      destruct Hi as (x & <- & _). simpl. intuition discriminate.
  - intros order. unfold shows_backend_values. split; [|split].
    + intros l. now repeat split.
    + reflexivity.
    + intros n [H|H].
      * unfold Owner.total_cell in H.
        destruct (total_amount order) as [m|]; [|discriminate].
        destruct (truthy_num m); [now injection H as -> | discriminate].
      * unfold Supplier.total_cell in H.
        destruct (total_amount order) as [m|]; [|discriminate].
        destruct (truthy_num m); [now injection H as -> | discriminate].
Qed.

Lemma orderPayload_shape_sample :
  exists req,
    In req (requests (events (sync accepts Owner.submitNewOrder Owner.bolt_order)))
    /\ body req
       = Some (JObj [ ("supplier_name", JStr "Acme");
                      ("items",
                       JArr [JObj [ ("product_name", JStr "Bolt");
                                    ("quantity", JNum (of_Z 3));
                                    ("price_per_item", JNum (of_Z 2)) ]]) ])
    /\ exists payload line_items,
         body req = Some payload
         /\ keys payload = ["supplier_name"; "items"]
         /\ field "supplier_name" payload
            = Some (JStr (Owner.supplierSelect_value Owner.bolt_order))
         /\ field "items" payload = Some (JArr line_items)
         /\ Forall (fun i => keys i = ["product_name"; "quantity"; "price_per_item"])
                   line_items
         /\ ~ In "status" (keys payload)
         /\ ~ In "total_amount" (keys payload)
         /\ Forall (fun i => ~ In "status" (keys i) /\ ~ In "total_amount" (keys i))
                   line_items.
Proof.
  eexists. split; [left; reflexivity|]. split; [reflexivity|].
  apply (proj1 (orderPayload_shape accepts Owner.bolt_order)). now left.
Defined.

(** ** suppliersData *)

(** C7: [suppliersData], the one variable of the owner script, is assigned
    by [fetchSuppliers] alone: when its request succeeds it becomes
    [data.suppliers] or the empty array, and stays as it was when the
    request fails; every other listener ([displayProductsForOrder], the
    checkbox listener, [submitNewOrder], [loadAllOrders],
    [markOrderComplete]) leaves it unchanged, however its requests are
    answered. *)
Theorem suppliersData_frame (user : string -> bool) :
  (forall l s c,
     l <> Owner.DOMContentLoaded ->
     reach user (dispatch user (Owner.handler l) s) c ->
     Owner.suppliersData (page c) = Owner.suppliersData s)
  /\ (forall s o, exists r,
        respond user Owner.fetchSuppliers s o = Some r
        /\ Owner.suppliersData (page_after r) = fetched (Owner.suppliersData s) o)
  /\ (forall s, Owner.suppliersData (page (dispatch user Owner.fetchSuppliers s))
                = Owner.suppliersData s).
Proof.
  split; [|split].
  - intros l s c Hl Hr.
    eapply keeps_dispatch; [|eassumption].
    now apply OwnerFacts.owner_handler_keeps.
  - intros s o. exists (sync user (Owner.fetchSuppliers_settled o) s).
    split; [reflexivity|]. destruct (failed o) eqn:Hf.
    + destruct (OwnerFacts.fetchSuppliers_failure user s o Hf) as (_ & _ & Hd).
      rewrite Hd. destruct o as [m|response]; [reflexivity|]. simpl in *.
      destruct (ok response); [|reflexivity].
      now destruct (response_json response).
    + destruct o as [m|response]; [discriminate|]. simpl in Hf.
      apply orb_false_iff in Hf. destruct Hf as [Hok Hjson].
      apply negb_false_iff in Hok.
      destruct (response_json response) as [m|data] eqn:E; [discriminate|].
      rewrite (OwnerFacts.fetchSuppliers_success user s response Hok E).
      simpl. now rewrite Hok, E.
  - reflexivity.
Qed.

(** ** Requests in flight *)

(** C8, as stated, fails: the page-load listener calls [fetchSuppliers] and
    [loadAllOrders] without awaiting either, so both requests are in flight
    at once. *)
Lemma DOMContentLoaded_two_in_flight :
  ~ one_at_a_time accepts (Owner.handler Owner.DOMContentLoaded).
Proof.
  intros H. specialize (H Owner.empty_page _ (reach_refl _ _)).
  simpl in H. lia.
Qed.

(** C8 (amended): every listener of the two pages other than the owner
    page's page-load listener has at most one request in flight at any time,
    however the responses arrive; the page-load listener starts the requests
    of [fetchSuppliers] and of [loadAllOrders] together, so it has two. *)
Theorem listeners_one_at_a_time (user : string -> bool) :
  (forall l, l <> Owner.DOMContentLoaded -> one_at_a_time user (Owner.handler l))
  /\ (forall l, one_at_a_time user (Supplier.handler l))
  /\ (forall s,
        map fst (inflight (dispatch user (Owner.handler Owner.DOMContentLoaded) s))
        = [GET (API_URL ++ "/suppliers")%string; GET (API_URL ++ "/orders/")%string]).
Proof.
  split; [|split].
  - intros l Hl. apply linear_one_at_a_time.
    now apply OwnerFacts.owner_handler_linear.
  - intros l. apply linear_one_at_a_time.
    apply SupplierFacts.supplier_handler_linear.
  - reflexivity.
Qed.

End PageFacts.

(* ===================================================================== *)
(** * Further properties of the SQL script *)
(* ===================================================================== *)

Module SqlMore.
Import Sql SqlFacts Scenarios.

Lemma key_eqb_refl (k : Z * Z) : key_eqb k k = true.
Proof. unfold key_eqb. now rewrite !Z.eqb_refl. Qed.

Lemma distinct_repeated (a b : list (Z * Z)) (k : Z * Z) :
  In k a -> In k b -> distinct (a ++ b) = false.
Proof.
  intros Ha Hb. induction a as [|x a IH]; [contradiction|]. simpl.
  destruct Ha as [->|Ha].
  - assert (H : existsb (key_eqb k) (a ++ b) = true).
    { apply existsb_exists. exists k. split; [|apply key_eqb_refl].
      apply in_or_app. now right. }
    now rewrite H.
  - rewrite (IH Ha). apply andb_false_r.
Qed.

Lemma keys_of_app (a b : list relation) : keys_of (a ++ b) = keys_of a ++ keys_of b.
Proof. apply flat_map_app. Qed.

Lemma in_keys_of (table : list relation) (r : relation) (k : Z * Z) :
  In r table -> key r = Some k -> In k (keys_of table).
Proof.
  intros Hin Hk. apply in_flat_map. exists r. split; [assumption|].
  rewrite Hk. now left.
Qed.

Lemma repeated_key_rejected (table : list relation) (a b : list relation)
    (ra rb : relation) (k : Z * Z) :
  In ra a -> In rb b -> key ra = Some k -> key rb = Some k ->
  primary_key_ok (table ++ a ++ b) = false.
Proof.
  intros Ha Hb Hka Hkb. unfold primary_key_ok. apply andb_false_iff. right.
  fold (keys_of (table ++ a ++ b)). rewrite app_assoc, keys_of_app.
  apply (@distinct_repeated _ _ k).
  - rewrite keys_of_app. apply in_or_app. right. eapply in_keys_of; eassumption.
  - eapply in_keys_of; eassumption.
Qed.

(** X1: the INSERT of Ex1 cannot run twice: once it has added at least one
    row, running it again on the table it produced violates the primary
    key and fails. *)
Theorem Ex1_not_repeatable (Family_Tree table : list relation) (People : list person) :
  Ex1 Family_Tree People = Some table ->
  Ex1_select People <> [] ->
  Ex1 table People = None.
Proof.
  unfold Ex1, insert_into. intros H Hne.
  destruct (primary_key_ok (Family_Tree ++ Ex1_select People)) eqn:Hpk; [|discriminate].
  injection H as <-.
  destruct (Ex1_select People) as [|r rest] eqn:Hsel; [congruence|].
  assert (Hk : exists k, key r = Some k).
  { unfold primary_key_ok in Hpk. apply andb_true_iff in Hpk. destruct Hpk as [Hnn _].
    rewrite forallb_forall in Hnn.
    assert (Hr : In r (Family_Tree ++ r :: rest))
      by (apply in_or_app; right; now left).
    specialize (Hnn r Hr).
    destruct (key r) as [k|]; [now exists k | discriminate]. }
  destruct Hk as (k & Hk).
  rewrite <- app_assoc.
  rewrite (@repeated_key_rejected Family_Tree (r :: rest) (r :: rest) r r k);
    simpl; auto.
Qed.

Lemma Ex1_not_repeatable_sample :
  Ex1 [] sample_People = Some (Ex1_select sample_People)
  /\ Ex1_select sample_People <> []
  /\ Ex1 (Ex1_select sample_People) sample_People = None.
Proof.
  split; [reflexivity|]. split; [discriminate|].
  apply (@Ex1_not_repeatable [] _ sample_People); [reflexivity | discriminate].
Defined.

(** X2: when some person has the same id as Father_Id and as Mother_Id, the
    INSERT of Ex1 selects that pair twice, fails on the primary key and
    leaves Family_Tree as it was, whatever else the tables hold. *)
Theorem Ex1_same_parents_rejected (Family_Tree : list relation)
    (People : list person) (p : person) (x : Z) :
  In p People -> Father_Id p = Some x -> Mother_Id p = Some x ->
  Ex1 Family_Tree People = None
  /\ Family_Tree_after Family_Tree People = Family_Tree.
Proof.
  intros Hin Hf Hm.
  assert (Hpk : primary_key_ok (Family_Tree ++ Ex1_select People) = false).
  { unfold Ex1_select.
    apply (@repeated_key_rejected Family_Tree (select_fathers People) _
             (row (Some (Person_Id p)) (Father_Id p) "father")
             (row (Some (Person_Id p)) (Mother_Id p) "mother")
             (Person_Id p, x)).
    - apply (in_select People (fun p => row (Some (Person_Id p)) (Father_Id p) "father")
               (fun p => is_not_null (Father_Id p))); [assumption | now rewrite Hf].
    - apply in_or_app. left.
      apply (in_select People (fun p => row (Some (Person_Id p)) (Mother_Id p) "mother")
               (fun p => is_not_null (Mother_Id p))); [assumption | now rewrite Hm].
    - unfold key. simpl. now rewrite Hf.
    - unfold key. simpl. now rewrite Hm. }
  unfold Family_Tree_after, Ex1. now rewrite (insert_into_fails _ _ Hpk).
Qed.

Lemma sibling_on_sym (p1 p2 : person) :
  sibling_on p1 p2 = true -> sibling_on p2 p1 = true.
Proof.
  rewrite !sibling_on_iff. intros [[(f & Hf1 & Hf2)|(m & Hm1 & Hm2)] Hne];
    (split; [|congruence]).
  - left. now exists f.
  - right. now exists m.
Qed.

(** X3: a sibling row (p, r) has its mirror row (r, p), labelled by the
    gender of r, as soon as r has both parent ids filled; a person with a
    NULL Father_Id or Mother_Id never stands in the Person_Id column of a
    sibling row (Person_Id being a key of People). *)
Theorem siblings_both_ways (People : list person) :
  (forall r, In r (select_siblings People) ->
     exists p1 p2,
       In p1 People /\ In p2 People
       /\ ft_Person_Id r = Some (Person_Id p1)
       /\ Relative_Id r = Some (Person_Id p2)
       /\ (Father_Id p2 <> None -> Mother_Id p2 <> None ->
           In (row (Some (Person_Id p2)) (Some (Person_Id p1))
                   (if is_male p2 then "brother" else "sister"))
              (select_siblings People)))
  /\ (forall p r,
        NoDup (map Person_Id People) -> In p People ->
        Father_Id p = None \/ Mother_Id p = None ->
        In r (select_siblings People) ->
        ft_Person_Id r <> Some (Person_Id p)).
Proof.
  split.
  - intros r Hr. apply in_select_siblings in Hr.
    destruct Hr as (p1 & p2 & H1 & H2 & Hon & _ & _ & ->).
    exists p1, p2. repeat split; try assumption.
    intros Hf Hm. apply in_select_siblings.
    exists p2, p1. repeat split; try assumption.
    + now apply sibling_on_sym.
    + now apply is_not_null_iff.
    + now apply is_not_null_iff.
  - intros p r Hkey Hp Hnull Hr Hid. apply in_select_siblings in Hr.
    destruct Hr as (p1 & p2 & H1 & _ & _ & Hf & Hm & ->). simpl in Hid.
    injection Hid as Hid.
    assert (p1 = p) by (eapply NoDup_map_inj; eassumption). subst p1.
    apply is_not_null_iff in Hf, Hm. destruct Hnull; contradiction.
Qed.

Lemma Ex1_same_parents_rejected_sample :
  Ex1 [] same_parent_People = None
  /\ Family_Tree_after [] same_parent_People = [].
Proof.
  apply (@Ex1_same_parents_rejected [] same_parent_People
           {| Person_Id := 1; Personal_Name := Some "Adam"; Family_Name := None;
              Gender := Some "M"; Father_Id := Some 2%Z; Mother_Id := Some 2%Z;
              Spouse_Id := None |} 2%Z);
    [now left | reflexivity | reflexivity].
Defined.

(** ** Ex2 again *)

Lemma no_missing_link_unchanged (People rows : list person) :
  no_missing_link People -> incl rows People ->
  update_rows People rows = Some rows.
Proof.
  intros Hno. induction rows as [|p rest IH]; intros Hincl; [reflexivity|].
  simpl. rewrite IH by (intros q Hq; apply Hincl; now right).
  assert (Hp : In p People) by (apply Hincl; now left).
  unfold update_row, missing_link.
  destruct (Spouse_Id p) as [sp|] eqn:Hsp; simpl; [reflexivity|].
  destruct (listed_by People (Person_Id p)) as [|x l] eqn:Hl; [reflexivity|].
  exfalso.
  assert (Hin : In x (listed_by People (Person_Id p))) by (rewrite Hl; now left).
  apply in_listed_by in Hin. destruct Hin as (q & Hq & Hs & _).
  exact (Hno p q Hp Hq Hsp Hs).
Qed.

Lemma updated_no_missing_link (People People' : list person) :
  NoDup (map Person_Id People) ->
  Forall2 (updated People) People People' ->
  no_missing_link People'.
Proof.
  intros Hkey Hall p' q' Hp' Hq' Hnull Hlink.
  destruct (Forall2_In_r p' Hall Hp') as (p & Hp & _ & _ & Hidp & Hpnull & _).
  destruct (Forall2_In_r q' Hall Hq') as (q & Hq & _ & _ & _ & _ & Hqsome).
  destruct (Hpnull Hnull) as [Hsp Hnone].
  rewrite Hidp in Hlink.
  destruct (Hqsome _ Hlink) as [Hold|[_ Hnew]].
  - assert (Hin : In (Person_Id q) (listed_by People (Person_Id p)))
      by (apply in_listed_by; now exists q).
    now rewrite Hnone in Hin.
  - apply in_listed_by in Hnew. destruct Hnew as (r & Hr & Hrs & Hrid).
    assert (r = p) by (eapply NoDup_map_inj; eassumption).
    subst r. congruence.
Qed.

(** X4: on a People table whose Person_Id is a key and where each person is
    listed as spouse at most once, running the UPDATE of Ex2 a second time
    changes nothing. *)
Theorem Ex2_idempotent (People : list person) :
  NoDup (map Person_Id People) ->
  listed_once People ->
  exists People', Ex2 People = Some People' /\ Ex2 People' = Some People'.
Proof.
  intros Hkey Honce.
  destruct (update_rows_listed_once People People Honce) as (People' & HEx & Hall).
  exists People'. split; [exact HEx|].
  apply no_missing_link_unchanged; [|apply incl_refl].
  eapply updated_no_missing_link; eassumption.
Qed.

Lemma Ex2_idempotent_sample :
  NoDup (map Person_Id sample_People)
  /\ listed_once sample_People
  /\ exists People', Ex2 sample_People = Some People' /\ Ex2 People' = Some People'.
Proof.
  assert (Hkey : NoDup (map Person_Id sample_People)).
  { simpl. repeat constructor; simpl; intuition discriminate. }
  assert (Honce : listed_once sample_People).
  { intros p Hp. simpl in Hp.
    repeat (destruct Hp as [<-|Hp]; [vm_compute; lia|]). contradiction. }
  split; [exact Hkey|]. split; [exact Honce|].
  exact (Ex2_idempotent Hkey Honce).
Defined.

(** X5: on a table where nobody with a NULL Spouse_Id is listed as spouse,
    the UPDATE of Ex2 succeeds and leaves every row as it is. *)
Theorem Ex2_without_links (People : list person) :
  no_missing_link People -> Ex2 People = Some People.
Proof. intros H. apply no_missing_link_unchanged; [assumption | apply incl_refl]. Qed.

Lemma Forall2_In_l {A B} (R : A -> B -> Prop) (l : list A) (l' : list B) (a : A) :
  Forall2 R l l' -> In a l -> exists b, In b l' /\ R a b.
Proof.
  induction 1 as [|x y l l' Hxy _ IH]; intros Hin; [contradiction|].
  destruct Hin as [<-|Hin].
  - exists y. split; [now left | assumption].
  - destruct (IH Hin) as (b & Hb & HR). exists b. split; [now right | assumption].
Qed.

(** X6: the spouse rows of Ex1 follow the Spouse_Id column as it is when
    the INSERT runs: a person whose Spouse_Id is NULL has no spouse row of
    their own; once Ex2 has run, a couple of which one side was NULL has its
    row in both directions. *)
Theorem spouse_rows_follow_column (People : list person) :
  (forall p r,
     NoDup (map Person_Id People) -> In p People -> Spouse_Id p = None ->
     In r (select_spouses People) -> ft_Person_Id r <> Some (Person_Id p))
  /\ (NoDup (map Person_Id People) -> listed_once People ->
      exists People',
        Ex2 People = Some People'
        /\ forall p q,
             In p People -> In q People ->
             Spouse_Id p = None -> Spouse_Id q = Some (Person_Id p) ->
             In (row (Some (Person_Id q)) (Some (Person_Id p))
                     (if is_male q then "wife" else "husband"))
                (select_spouses People')
             /\ In (row (Some (Person_Id p)) (Some (Person_Id q))
                        (if is_male p then "wife" else "husband"))
                   (select_spouses People')).
Proof.
  split.
  - intros p r Hkey Hp Hnull Hr Hid. unfold select_spouses in Hr.
    apply in_map_iff in Hr. destruct Hr as (q & <- & Hq).
    apply filter_In in Hq. destruct Hq as [Hq Hsp]. simpl in Hid.
    injection Hid as Hid.
    assert (q = p) by (eapply NoDup_map_inj; eassumption). subst q.
    rewrite Hnull in Hsp. discriminate.
  - intros Hkey Honce.
    destruct (update_rows_listed_once People People Honce) as (People' & HEx & Hall).
    exists People'. split; [exact HEx|]. intros p q Hp Hq Hnull Hlists. split.
    + destruct (Forall2_In_l q Hall Hq) as (q' & Hq' & _ & (_ & _ & Hsame) & _).
      assert (q' = q) by (apply Hsame; left; congruence). subst q'.
      rewrite <- Hlists.
      apply (in_select People'
               (fun p => row (Some (Person_Id p)) (Spouse_Id p)
                             (if is_male p then "wife" else "husband"))
               (fun p => is_not_null (Spouse_Id p))); [assumption|].
      now rewrite Hlists.
    + destruct (Forall2_In_l p Hall Hp) as (p' & Hp' & _ & (Hset & Hnew & _) & Hid & _).
      specialize (Hnew Hnull q Hq Hlists).
      assert (Hmale : is_male p' = is_male p).
      { rewrite Hset. reflexivity. }
      rewrite <- Hid, <- Hnew, <- Hmale.
      apply (in_select People'
               (fun p => row (Some (Person_Id p)) (Spouse_Id p)
                             (if is_male p then "wife" else "husband"))
               (fun p => is_not_null (Spouse_Id p))); [assumption|].
      now rewrite Hnew.
Qed.

Lemma Ex2_without_links_sample :
  no_missing_link linked_People /\ Ex2 linked_People = Some linked_People.
Proof.
  assert (Hno : no_missing_link linked_People).
  { intros p q Hp Hq. simpl in Hp, Hq.
    repeat (destruct Hp as [<-|Hp]; [|]); try contradiction;
      repeat (destruct Hq as [<-|Hq]; [|]); try contradiction;
      simpl; congruence. }
  split; [exact Hno | exact (Ex2_without_links Hno)].
Defined.

End SqlMore.

(* ===================================================================== *)
(** * Further properties of the owner page *)
(* ===================================================================== *)

Module OwnerMore.
Import Js Api Async AsyncFacts HtmlFacts Pages Scenarios Owner OwnerFacts.

Lemma page_eta (s : page) :
  {| suppliersData := suppliersData s;
     supplierSelect_options := supplierSelect_options s;
     supplierSelect_value := supplierSelect_value s;
     productsForOrderDiv := productsForOrderDiv s;
     allOrdersListDiv := allOrdersListDiv s;
     styleSheet := styleSheet s |} = s.
Proof. now destruct s. Qed.

(** The loop that fills the dropdown, run in one go. *)
Lemma forEach_add_options (user : string -> bool) (l : list supplier) (s : page) :
  sync user (forEach l add_supplier_option Done) s =
  {| page_after :=
       {| suppliersData := suppliersData s;
          supplierSelect_options := supplierSelect_options s ++ supplier_options l;
          supplierSelect_value := supplierSelect_value s;
          productsForOrderDiv := productsForOrderDiv s;
          allOrdersListDiv := allOrdersListDiv s;
          styleSheet := styleSheet s |};
     events := skipped_warnings l;
     parked := [] |}.
Proof.
  revert s. induction l as [|x l IH]; intros s; simpl.
  - now rewrite app_nil_r, page_eta.
  - unfold add_supplier_option.
    destruct (company_name x) as [name|]; [destruct (truthy name)|];
      simpl; rewrite IH; simpl; try reflexivity.
    now rewrite <- app_assoc.
Qed.

Lemma fetchSuppliers_settled_sync (user : string -> bool) (o : outcome) (s : page) :
  page_after (sync user (fetchSuppliers_settled o) s) = suppliers_loaded o s
  /\ parked (sync user (fetchSuppliers_settled o) s) = []
  /\ events (sync user (fetchSuppliers_settled o) s)
     = if failed o then [LoggedError "Error fetching suppliers:"]
       else match o with
            | Resolved response =>
                match response_json response with
                | Json data => skipped_warnings (or_nil (suppliers data))
                | SyntaxError _ => []
                end
            | NetworkError _ => []
            end.
Proof.
  unfold fetchSuppliers_settled, suppliers_loaded.
  destruct o as [m|response]; simpl; [now repeat split|].
  destruct (ok response); simpl; [|now repeat split].
  destruct (response_json response) as [m|data]; simpl; [now repeat split|].
  rewrite forEach_add_options. simpl. now repeat split.
Qed.

Lemma order_rows_all (l : list order) :
  order_rows l
  = if existsb (fun o => has_space (status_class (status o))) l
    then None else Some (map order_row l).
Proof.
  induction l as [|x l IH]; [reflexivity|]. cbn [order_rows existsb map]. rewrite IH.
  destruct (has_space _); [reflexivity|]. cbn [orb]. now destruct (existsb _ l).
Qed.

Lemma loadAllOrders_settled_sync (user : string -> bool) (o : outcome) (s : page) :
  page_after (sync user (loadAllOrders_settled o) s) = orders_loaded o s
  /\ parked (sync user (loadAllOrders_settled o) s) = [].
Proof.
  unfold loadAllOrders_settled, orders_loaded.
  destruct o as [m|response]; [now split|].
  cbn [shows_table orders_view].
  destruct (ok response); cbn [negb andb]; [|now split].
  destruct (response_json response) as [m|data]; [now split|].
  cbn [sync].
  destruct (or_nil (orders data)) as [|order rest] eqn:E; [now split|].
  cbn [length Nat.eqb sync]. rewrite order_rows_all.
  destruct (existsb _ (order :: rest)); cbn [negb sync]; [now split|].
  unfold add_status_styles. cbn [sync styleSheet set_allOrdersListDiv].
  destruct (styleSheet s) eqn:Hst; cbn [sync page_after parked];
    unfold set_allOrdersListDiv, set_styleSheet;
    cbn [suppliersData supplierSelect_options supplierSelect_value
         productsForOrderDiv allOrdersListDiv styleSheet app option_map];
    rewrite ?Hst; now split.
Qed.

(** ** The dropdown *)






(** ** The two requests of the page load *)

(** X8: the two responses of the page load may arrive in either order: the
    page ends up the same, with nothing left in flight. *)
Theorem page_load_responses_commute (user : string -> bool) (s : page)
    (o1 o2 : outcome) :
  let c0 := dispatch user (handler DOMContentLoaded) s in
  let done :=
    {| Async.page := orders_loaded o2
                 (suppliers_loaded o1
                    (set_allOrdersListDiv [p "Loading orders..."] s));
       inflight := [] |} in
  and_then (deliver user 0 o1 c0) (deliver user 0 o2) = Some done
  /\ and_then (deliver user 1 o2 c0) (deliver user 0 o1) = Some done.
Proof.
  intros c0 done. subst c0 done. unfold dispatch, handler, fetchSuppliers, loadAllOrders.
  cbn [sync page_after parked app]. unfold deliver.
  cbn [inflight Async.page nth_error remove_nth app and_then].
  destruct (fetchSuppliers_settled_sync user o1
              (set_allOrdersListDiv [p "Loading orders..."] s)) as (Hp1 & Hk1 & _).
  destruct (loadAllOrders_settled_sync user o2
              (set_allOrdersListDiv [p "Loading orders..."] s)) as (Hp2 & Hk2).
  rewrite Hp1, Hk1, Hp2, Hk2. cbn [inflight Async.page nth_error remove_nth app and_then].
  destruct (loadAllOrders_settled_sync user o2
              (suppliers_loaded o1 (set_allOrdersListDiv [p "Loading orders..."] s)))
    as (Hp3 & Hk3).
  destruct (fetchSuppliers_settled_sync user o1
              (orders_loaded o2 (set_allOrdersListDiv [p "Loading orders..."] s)))
    as (Hp4 & Hk4 & _).
  rewrite Hp3, Hk3, Hp4, Hk4. now split.
Qed.

(** ** The status rules of the stylesheet *)

Lemma includes_app (a b : list css_rule) (selector : string) :
  includes (a ++ b) selector = includes a selector || includes b selector.
Proof. unfold includes. apply existsb_app. Qed.

Lemma filter_none {A} (f : A -> bool) (l : list A) :
  (forall x, In x l -> f x = false) -> filter f l = [].
Proof.
  induction l as [|x l IH]; intros H; [reflexivity|]. simpl.
  rewrite (H x (or_introl eq_refl)). apply IH. intros y Hy. apply H. now right.
Qed.

Lemma status_rules_included (rules : list css_rule) (rule : css_rule) :
  In rule status_rules ->
  includes (insert_status_rules rules) (selectorText rule) = true.
Proof.
  intros Hin. unfold insert_status_rules. rewrite includes_app.
  destruct (includes rules (selectorText rule)) eqn:Hold; [reflexivity|]. cbn [orb].
  unfold includes. apply existsb_exists. exists rule. split.
  - apply filter_In. split; [assumption|]. unfold includes in Hold. now rewrite Hold.
  - apply String.eqb_refl.
Qed.

(** X9: [loadAllOrders] adds a status rule only when no rule of the
    stylesheet has its selector: the old rules stay in front, at most three
    are added, afterwards all three selectors are present, and a second
    refresh adds nothing. *)
Theorem status_rules_inserted_once (user : string -> bool) (rules : list css_rule) :
  (exists added,
     insert_status_rules rules = rules ++ added
     /\ length added <= 3
     /\ forall rule, In rule added ->
          In rule status_rules /\ includes rules (selectorText rule) = false)
  /\ (forall rule, In rule status_rules ->
        includes (insert_status_rules rules) (selectorText rule) = true)
  /\ insert_status_rules (insert_status_rules rules) = insert_status_rules rules
  /\ (forall s o1 o2,
        shows_table o1 = true ->
        styleSheet (page_after (sync user (loadAllOrders_settled o2)
                      (page_after (sync user (loadAllOrders_settled o1) s))))
        = styleSheet (page_after (sync user (loadAllOrders_settled o1) s))).
Proof.
  assert (Hidem : forall l, insert_status_rules (insert_status_rules l)
                            = insert_status_rules l).
  { intros l. unfold insert_status_rules at 1. rewrite filter_none.
    - apply app_nil_r.
    - intros rule Hin. now rewrite status_rules_included. }
  split; [|split; [|split]].
  - exists (filter (fun r => negb (includes rules (selectorText r))) status_rules).
    split; [reflexivity|]. split.
    + apply (Nat.le_trans _ _ _ (filter_length_le _ _)). simpl. lia.
    + intros rule Hin. apply filter_In in Hin. destruct Hin as [Hin Hneg].
      split; [assumption | now apply negb_true_iff].
  - apply status_rules_included.
  - apply Hidem.
  - intros s o1 o2 Hshow.
    destruct (loadAllOrders_settled_sync user o1 s) as (Hp1 & _). rewrite Hp1.
    destruct (loadAllOrders_settled_sync user o2 (orders_loaded o1 s)) as (Hp2 & _).
    rewrite Hp2. unfold orders_loaded. cbn [styleSheet]. rewrite Hshow.
    destruct (shows_table o2); [|reflexivity].
    destruct (styleSheet s); [|reflexivity]. simpl. now rewrite Hidem.
Qed.

(** ** Choosing a supplier, ticking products, submitting *)












(** ** After a successful write *)

(** X13: when the POST of [submitNewOrder] succeeds, the handler shows the
    alert with the order's reference id, resets the product area, starts one
    reload of the orders list and keeps [suppliersData]; submitting again
    right away sends no second order. *)
Theorem order_created_resets_form (user : string -> bool) (s : page)
    (response : response) (data : data) (r : result page) :
  ok response = true -> response_json response = Json data ->
  respond user submitNewOrder s (Resolved response) = Some r ->
  events r
  = [ Alerted ("Order " ++ or_else (data_order_reference_id data) ""
                 ++ " created successfully!");
      Sent (GET (API_URL ++ "/orders/")) ]
  /\ productsForOrderDiv (page_after r)
     = [Para "Please select a supplier to see products."]
  /\ allOrdersListDiv (page_after r) = [p "Loading orders..."]
  /\ suppliersData (page_after r) = suppliersData s
  /\ map fst (parked r) = [GET (API_URL ++ "/orders/")]
  /\ requests (events (sync user submitNewOrder (page_after r))) = [].
Proof.
  intros Hok Hjson Hr. apply submitNewOrder_respond in Hr. subst r.
  unfold submitNewOrder_settled. rewrite Hjson, Hok.
  unfold loadAllOrders. cbn [sync events parked page_after app map fst].
  repeat (split; [reflexivity|]).
  unfold submitNewOrder. cbn [sync].
  match goal with |- context [truthy ?v] => destruct (truthy v) end; reflexivity.
Qed.

Lemma order_created_resets_form_sample :
  exists r,
    respond accepts submitNewOrder bolt_order (Resolved created_response) = Some r
    /\ events r = [ Alerted "Order ORD-7 created successfully!";
                    Sent (GET (API_URL ++ "/orders/")) ]
    /\ requests (events (sync accepts submitNewOrder (page_after r))) = [].
Proof.
  eexists. split; [reflexivity|].
  destruct (@order_created_resets_form accepts bolt_order created_response _ _
              eq_refl eq_refl eq_refl) as (He & _ & _ & _ & _ & Hq).
  split; [exact He | exact Hq].
Defined.

(** X14: when the PUT of [markOrderComplete] comes back with a JSON body,
    the handler shows one alert; it reloads the orders list when the
    response is ok, and leaves the page as it is when it is not. *)
Theorem completion_reloads_orders (user : string -> bool) (id : string) (s : page)
    (response : response) (data : data) (r : result page) :
  response_json response = Json data ->
  respond user (markOrderComplete id) s (Resolved response) = Some r ->
  if ok response then
    events r = [ Alerted (or_else (message data) "Order marked as completed!");
                 Sent (GET (API_URL ++ "/orders/")) ]
    /\ map fst (parked r) = [GET (API_URL ++ "/orders/")]
    /\ page_after r = set_allOrdersListDiv [p "Loading orders..."] s
  else
    events r = [ Alerted ("Error marking order as complete: "
                            ++ or_else (detail data) (statusText response)) ]
    /\ parked r = []
    /\ page_after r = s.
Proof.
  intros Hjson Hr. apply markOrderComplete_respond in Hr. subst r.
  unfold markOrderComplete_settled. rewrite Hjson.
  destruct (ok response); unfold loadAllOrders;
    cbn [sync events parked page_after app map fst]; now repeat split.
Qed.

Lemma completion_reloads_orders_sample :
  exists r,
    respond accepts (markOrderComplete "ORD-7") empty_page (Resolved created_response)
      = Some r
    /\ events r = [ Alerted "Order created"; Sent (GET (API_URL ++ "/orders/")) ].
Proof.
  eexists. split; [reflexivity|].
  exact (proj1 (@completion_reloads_orders accepts "ORD-7" empty_page
                  created_response _ _ eq_refl eq_refl)).
Defined.

(** ** A declined confirmation *)

(** X15: when the user declines the confirmation of [markOrderComplete] or
    of [approveOrder], nothing is sent, no alert is shown, and the page
    stays as it is. *)
Theorem declined_confirm_sends_nothing (user : string -> bool) (id : string) :
  (forall s c,
     user ("Confirm receipt of order " ++ id
             ++ "? This will mark it as 'Completed'.")%string = false ->
     reach user (dispatch user (markOrderComplete id) s) c ->
     c = {| Async.page := s; inflight := [] |}
     /\ alerts (events (sync user (markOrderComplete id) s)) = []
     /\ requests (events (sync user (markOrderComplete id) s)) = [])
  /\ (forall s c,
        user ("Are you sure you want to approve order " ++ id ++ "?")%string = false ->
        reach user (dispatch user (Supplier.approveOrder id) s) c ->
        c = {| Async.page := s; inflight := [] |}
        /\ alerts (events (sync user (Supplier.approveOrder id) s)) = []
        /\ requests (events (sync user (Supplier.approveOrder id) s)) = []).
Proof.
  assert (Hstuck : forall St (c c' : config St),
            reach user c c' -> inflight c = [] -> c' = c).
  { intros St c c' Hr. induction Hr as [c|c i o c1 c2 Hd _ _]; intros Hnil;
      [reflexivity|].
    unfold deliver in Hd. rewrite Hnil in Hd. now destruct i. }
  split; intros s c Hno Hr.
  - unfold dispatch, markOrderComplete in *. cbn [sync] in *. rewrite Hno in *.
    cbn [negb sync events parked page_after] in *.
    split; [now apply (Hstuck _ _ _ Hr) | now split].
  - unfold dispatch, Supplier.approveOrder in *. cbn [sync] in *. rewrite Hno in *.
    cbn [negb sync events parked page_after] in *.
    split; [now apply (Hstuck _ _ _ Hr) | now split].
Qed.

End OwnerMore.

(* ===================================================================== *)
(** * Further properties of the supplier page *)
(* ===================================================================== *)

Module SupplierMore.
Import Js Api Async AsyncFacts HtmlFacts Pages Scenarios Supplier SupplierFacts.





(** X18: when the displayed supplier name is empty, a successful approval
    shows its alert, logs that the company name could not be determined and
    reloads nothing. *)
Theorem approve_without_login (user : string -> bool) (s : page)
    (response : response) (data : data) :
  loggedInSupplierNameSpan s = "" ->
  ok response = true -> response_json response = Json data ->
  events (sync user (approveOrder_settled (Resolved response)) s)
  = [ Alerted (or_else (message data) "Order approved successfully!");
      LoggedError "Could not determine the company name to reload orders." ]
  /\ parked (sync user (approveOrder_settled (Resolved response)) s) = []
  /\ page_after (sync user (approveOrder_settled (Resolved response)) s) = s.
Proof.
  intros Hspan Hok Hjson. unfold approveOrder_settled. rewrite Hjson, Hok.
  cbn [sync]. rewrite Hspan. now repeat split.
Qed.

Lemma approve_without_login_sample :
  events (sync accepts (approveOrder_settled (Resolved welcome_response)) empty_page)
  = [ Alerted "Welcome";
      LoggedError "Could not determine the company name to reload orders." ].
Proof.
  exact (proj1 (@approve_without_login accepts empty_page welcome_response _
                  eq_refl eq_refl eq_refl)).
Defined.

(** ** Product rows and registration *)

Lemma all_valid_app (a b : list product_entry) :
  all_valid (a ++ b) = all_valid a && all_valid b.
Proof. unfold all_valid. apply forallb_app. Qed.

Lemma remove_last {A} (l : list A) (x : A) : remove_nth (length l) (l ++ [x]) = l.
Proof. induction l as [|y l IH]; [reflexivity|]. simpl. now rewrite IH. Qed.

Lemma remove_beyond {A} (l : list A) (i : nat) :
  length l <= i -> remove_nth i l = l.
Proof.
  revert i. induction l as [|x l IH]; intros [|i] Hi; simpl in *;
    try reflexivity; [lia|]. rewrite IH; [reflexivity | lia].
Qed.

(** What the registration handler does when some row is not valid. *)
Lemma register_blocked (user : string -> bool) (s : page) :
  all_valid (productsListDiv s) = false ->
  requests (events (sync user registerFormSubmitHandler s)) = []
  /\ alerts (events (sync user registerFormSubmitHandler s))
     = ["Please ensure all product fields (Name, Price >= 0, Min Qty >= 1) are correctly filled."]
  /\ parked (sync user registerFormSubmitHandler s) = [].
Proof.
  intros Hbad. unfold registerFormSubmitHandler. cbn [sync].
  rewrite collect_products_sync. cbn [app andb events parked page_after].
  rewrite Hbad. cbn [negb sync events parked].
  rewrite (proj1 (entry_warnings_quiet (productsListDiv s) _)),
          (proj2 (entry_warnings_quiet (productsListDiv s) _)).
  now repeat split.
Qed.

(** X19: [addProductEntry] appends one empty row; with that row unfilled the
    registration handler sends nothing and shows the fields alert; removing
    the row gives the page back, and removing at an index beyond the rows
    changes nothing. *)
Theorem added_row_blocks_registration (user : string -> bool) (s : page) :
  let added := page_after (sync user addProductEntry s) in
  productsListDiv added = productsListDiv s ++ [blank_entry]
  /\ events (sync user addProductEntry s) = []
  /\ requests (events (sync user registerFormSubmitHandler added)) = []
  /\ alerts (events (sync user registerFormSubmitHandler added))
     = ["Please ensure all product fields (Name, Price >= 0, Min Qty >= 1) are correctly filled."]
  /\ page_after (sync user (remove_product (length (productsListDiv s))) added) = s
  /\ (forall i, length (productsListDiv s) <= i ->
        page_after (sync user (remove_product i) s) = s).
Proof.
  intros added. subst added. unfold addProductEntry. cbn [sync page_after events].
  split; [reflexivity|]. split; [reflexivity|].
  destruct (register_blocked user
              (set_productsListDiv (productsListDiv s ++ [blank_entry]) s))
    as (Hq & Ha & _).
  { cbn [productsListDiv set_productsListDiv]. rewrite all_valid_app.
    apply andb_false_r. }
  split; [exact Hq|]. split; [exact Ha|]. split.
  - unfold remove_product. cbn [sync page_after productsListDiv set_productsListDiv].
    unfold set_productsListDiv. cbn. rewrite remove_last. now destruct s.
  - intros i Hi. unfold remove_product. cbn [sync page_after].
    rewrite (remove_beyond _ Hi). now destruct s.
Qed.

(** X20: after a successful registration one empty product row and empty
    company fields are left, the login fields are untouched, and submitting
    again right away sends nothing. *)
Theorem registration_resets_form (user : string -> bool) (s : page)
    (response : response) (data : data) (r : result page) :
  ok response = true -> response_json response = Json data ->
  respond user registerFormSubmitHandler s (Resolved response) = Some r ->
  events r = [Alerted (or_else (message data) "Supplier registered successfully!")]
  /\ parked r = []
  /\ productsListDiv (page_after r) = [blank_entry]
  /\ companyName (page_after r) = ""
  /\ phone (page_after r) = ""
  /\ representative_name (page_after r) = ""
  /\ loginCompanyName (page_after r) = loginCompanyName s
  /\ requests (events (sync user registerFormSubmitHandler (page_after r))) = []
  /\ alerts (events (sync user registerFormSubmitHandler (page_after r)))
     = ["Please ensure all product fields (Name, Price >= 0, Min Qty >= 1) are correctly filled."].
Proof.
  intros Hok Hjson Hr.
  assert (Hrows : exists e rest,
            productsListDiv s = e :: rest /\ clear_entry e = blank_entry).
  { unfold respond, registerFormSubmitHandler in Hr. cbn [sync] in Hr.
    rewrite collect_products_sync in Hr. cbn [app andb parked] in Hr.
    destruct (all_valid (productsListDiv s)) eqn:Hall; cbn [negb sync parked] in Hr;
      [|discriminate].
    destruct (productsListDiv s) as [|e rest]; [discriminate|].
    exists e, rest. split; [reflexivity|].
    simpl in Hall. apply andb_true_iff in Hall. destruct Hall as [He _].
    unfold check_entry in He. unfold clear_entry, blank_entry.
    destruct (product_name_input e); [|discriminate].
    destruct (product_price_input e); [|discriminate].
    destruct (product_min_qty_input e); [|discriminate]. reflexivity. }
  destruct Hrows as (e & rest & Hlist & Hclear).
  apply register_respond in Hr. subst r.
  unfold register_settled. rewrite Hjson, Hok.
  cbn [sync events parked page_after]. unfold reset_register.
  cbn [productsListDiv companyName phone representative_name loginCompanyName].
  rewrite Hlist. cbn [firstn map]. rewrite Hclear.
  repeat (split; [reflexivity|]).
  match goal with
  | |- context [sync user registerFormSubmitHandler ?s1] =>
      destruct (register_blocked user s1) as (Hq & Ha & _); [reflexivity|]
  end.
  now split.
Qed.

Lemma registration_resets_form_sample :
  exists r,
    respond accepts registerFormSubmitHandler acme_registration
      (Resolved welcome_response) = Some r
    /\ events r = [Alerted "Welcome"]
    /\ productsListDiv (page_after r) = [blank_entry]
    /\ requests (events (sync accepts registerFormSubmitHandler (page_after r))) = [].
Proof.
  eexists. split; [reflexivity|].
  destruct (@registration_resets_form accepts acme_registration welcome_response
              _ _ eq_refl eq_refl eq_refl)
    as (He & _ & Hl & _ & _ & _ & _ & Hq & _).
  split; [exact He|]. split; [exact Hl | exact Hq].
Defined.

(** ** The orders list *)




(** ** The URL of a supplier's orders *)

Lemma hex_digit_unreserved (k : nat) : k < 16 -> unreserved (hex_digit k) = true.
Proof.
  intros Hk. do 16 (destruct k as [|k]; [reflexivity|]). lia.
Qed.

Lemma encodeURIComponent_safe (text : string) :
  Forall url_safe (list_ascii_of_string (encodeURIComponent text)).
Proof.
  induction text as [|c text IH]; [constructor|]. cbn [encodeURIComponent].
  destruct (unreserved c) eqn:Hc; cbn [list_ascii_of_string].
  - constructor; [now left | assumption].
  - pose proof (nat_ascii_bounded c) as Hb.
    constructor; [now right|].
    constructor; [left; apply hex_digit_unreserved;
                  apply Nat.Div0.div_lt_upper_bound; lia|].
    constructor; [left; apply hex_digit_unreserved; apply Nat.mod_upper_bound; lia|].
    assumption.
Qed.

(** X22: the company name goes into the URL of [loadOrders] through
    [encodeURIComponent]: the encoded name holds only unreserved characters
    and percent signs, so no slash, question mark, hash, ampersand, equals
    sign or blank, and it is empty only for the empty name. *)
Theorem orders_url_is_one_segment (company : string) :
  url (get_orders company)
  = (API_URL ++ "/orders/supplier/" ++ encodeURIComponent company)%string
  /\ Forall url_safe (list_ascii_of_string (encodeURIComponent company))
  /\ (forall c, In c ["/"; "?"; "#"; "&"; "="; " "]%char ->
        ~ In c (list_ascii_of_string (encodeURIComponent company)))
  /\ (company = "" <-> encodeURIComponent company = "").
Proof.
  split; [reflexivity|]. split; [apply encodeURIComponent_safe|]. split.
  - intros c Hc Hin.
    pose proof (encodeURIComponent_safe company) as Hsafe.
    rewrite Forall_forall in Hsafe. specialize (Hsafe c Hin).
    simpl in Hc. unfold url_safe in Hsafe.
    repeat (destruct Hc as [<-|Hc];
            [destruct Hsafe as [Hs|Hs]; [discriminate Hs | discriminate Hs]|]).
    contradiction.
  - split; [now intros ->|]. destruct company as [|c text]; [reflexivity|].
    simpl. destruct (unreserved c); discriminate.
Qed.

End SupplierMore.
